(** * NFT collection image downloader (download_nft_images.py)

    A shallow embedding of the script and the properties of its
    specification.

    - Python [str] values are [string]s (one [ascii] per character), the
      parsed manifest is a [json] value, Python's unbounded [int]s are [Z]
      and the three run counters, which only count up from 0, are [nat].
    - Effects are explicit: a computation is a function from a [world] (the
      files on disk and the log of everything the run did so far) to an
      [outcome] and a new world.  An uncaught Python exception is the
      outcome [Raise]; the world reached when it is raised is kept, as the
      side effects performed before it are not undone.
    - The disk is a finite map from the paths that exist to what they
      hold.  [os.path.exists] and [os.path.getsize] do not tell a directory
      from a file, and neither does the map; two paths are the same when
      they are the same string.  Paths are taken to be names that [open]
      accepts: a path with a NUL character, which [open] rejects with
      [ValueError] whatever the disk does, is outside the model.
    - What the script cannot decide itself is a field of the environment
      [Env]: the answers of the HTTP server, the faults of the disk, the
      result of reading and parsing the manifest file, and the library
      functions [urllib.parse.urlparse] and [str()] on values that are not
      strings.  Theorems hold for every environment. *)

From Stdlib Require Import ZArith QArith.QArith_base String Ascii List Bool Lia.
From Stdlib Require Import Floats.SpecFloat.
From stdpp Require Import gmap strings list pretty.

Close Scope Q_scope.
Open Scope string_scope.
Open Scope list_scope.

(* ===================================================================== *)
(** ** Python strings *)
(* ===================================================================== *)

Module PyStr.

(** [s[n:]] *)
Fixpoint drop (n : nat) (s : string) : string :=
  match n, s with
  | O, _ => s
  | S _, EmptyString => EmptyString
  | S n', String _ s' => drop n' s'
  end.

(** [s[:n]] *)
Fixpoint take (n : nat) (s : string) : string :=
  match n, s with
  | O, _ => EmptyString
  | S _, EmptyString => EmptyString
  | S n', String c s' => String c (take n' s')
  end.

(** [s[i:j]] for indices that are not negative *)
Definition slice (s : string) (i j : Z) : string :=
  take (Z.to_nat (j - i)) (drop (Z.to_nat i) s).

(** [sub in s] *)
Fixpoint contains (sub s : string) : bool :=
  String.prefix sub s ||
  match s with
  | EmptyString => false
  | String _ s' => contains sub s'
  end.

(** The text before and the text after the first (leftmost) occurrence of
    [sep] in [s]; [None] when [sep] does not occur. *)
Fixpoint cut (sep s : string) : option (string * string) :=
  if String.prefix sep s then Some (EmptyString, drop (String.length sep) s)
  else match s with
       | EmptyString => None
       | String c s' =>
           match cut sep s' with
           | Some (a, b) => Some (String c a, b)
           | None => None
           end
       end.

(** [s.split(sep)] for a separator that is not empty: the pieces between
    the occurrences of [sep], found from left to right without overlap.
    Every cut removes at least one character, so [String.length s] rounds
    are enough (lemma [split_fuel_enough]). *)
Fixpoint split_fuel (fuel : nat) (sep s : string) : list string :=
  match fuel with
  | O => [s]
  | S fuel' =>
      match cut sep s with
      | None => [s]
      | Some (a, b) => a :: split_fuel fuel' sep b
      end
  end.

Definition split (sep s : string) : list string :=
  split_fuel (String.length s) sep s.

(** The text of [s] before the first occurrence of [sep]; all of [s] when
    [sep] does not occur. *)
Definition before (sep s : string) : string :=
  match cut sep s with
  | Some (a, _) => a
  | None => s
  end.

(** [s.rfind(c)] for a single character: the index of its last
    occurrence, or -1. *)
Fixpoint rfind_from (c : ascii) (i : Z) (s : string) (last : Z) : Z :=
  match s with
  | EmptyString => last
  | String x s' => rfind_from c (i + 1) s' (if Ascii.eqb x c then i else last)
  end.

Definition rfind (c : ascii) (s : string) : Z := rfind_from c 0 s (-1).

(** [s.find(c)] for a single character: the index of its first
    occurrence, or -1. *)
Fixpoint find_from (c : ascii) (i : Z) (s : string) : Z :=
  match s with
  | EmptyString => (-1)%Z
  | String x s' => if Ascii.eqb x c then i else find_from c (i + 1) s'
  end.

Definition find (c : ascii) (s : string) : Z := find_from c 0 s.

Fixpoint forallb (f : ascii -> bool) (s : string) : bool :=
  match s with
  | EmptyString => true
  | String c s' => f c && forallb f s'
  end.

Definition mem (c : ascii) (s : string) : bool :=
  negb (forallb (fun x => negb (Ascii.eqb x c)) s).

Definition lower_ascii (c : ascii) : ascii :=
  let n := nat_of_ascii c in
  if (65 <=? n)%nat && (n <=? 90)%nat then ascii_of_nat (n + 32) else c.

Fixpoint lower (s : string) : string :=
  match s with
  | EmptyString => EmptyString
  | String c s' => String (lower_ascii c) (lower s')
  end.

End PyStr.

(* ===================================================================== *)
(** ** Exceptions and outcomes *)
(* ===================================================================== *)

(** The Python exceptions that escape the functions of the script. *)
Inductive exn : Type :=
| AttributeError   (* [.get] on a value that is not a dict, [.decode] on a value that is not a str *)
| TypeError        (* [len] of a value that has no length *)
| ValueError       (* [urlparse] on a URL it rejects *)
| IndexError       (* list index out of range *)
| OSError.         (* the disk refuses to create a directory or a file *)

Inductive outcome (A : Type) : Type :=
| Ret (a : A)
| Raise (e : exn).
Arguments Ret {A} a.
Arguments Raise {A} e.

(* ===================================================================== *)
(** ** os.path (POSIX) *)
(* ===================================================================== *)

Module OsPath.

(** The loop of [genericpath._splitext] that skips the leading dots of the
    file name: [fuel] is [dotIndex - filenameIndex], the number of times
    the condition [filenameIndex < dotIndex] holds. *)
Fixpoint skip_leading_dots (p : string) (dotIndex : Z) (fuel : nat)
         (filenameIndex : Z) : string * string :=
  match fuel with
  | O => (p, EmptyString)
  | S fuel' =>
      if negb (String.eqb (PyStr.slice p filenameIndex (filenameIndex + 1)) ".")
      then (PyStr.take (Z.to_nat dotIndex) p, PyStr.drop (Z.to_nat dotIndex) p)
      else skip_leading_dots p dotIndex fuel' (filenameIndex + 1)
  end.

(** [os.path.splitext(p)]: the extension is the text from the last dot of
    the last path segment on, unless only dots come before it in that
    segment. *)
Definition splitext (p : string) : string * string :=
  let sepIndex := PyStr.rfind "/" p in
  let dotIndex := PyStr.rfind "." p in
  if (dotIndex >? sepIndex)%Z
  then skip_leading_dots p dotIndex (Z.to_nat (dotIndex - (sepIndex + 1))) (sepIndex + 1)
  else (p, EmptyString).

(** [os.path.join(a, b)] with two arguments: an absolute [b] replaces [a]. *)
Definition join (a b : string) : string :=
  if String.prefix "/" b then b
  else if (String.eqb a "") || String.eqb (PyStr.drop (String.length a - 1) a) "/"
       then a +:+ b
       else a +:+ "/" +:+ b.

(** [os.path.basename(p)]: the text after the last slash. *)
Definition basename (p : string) : string :=
  PyStr.drop (Z.to_nat (PyStr.rfind "/" p + 1)) p.

End OsPath.

(* ===================================================================== *)
(** ** urllib.parse *)
(* ===================================================================== *)

(** The six components of [urllib.parse.ParseResult]. *)
Record ParseResult : Type := mkParseResult {
  scheme : string;
  netloc : string;
  path : string;
  params : string;
  query : string;
  fragment : string
}.

(** A reference instance of [urlparse], used for concrete runs only: the
    generic-syntax core of CPython's [urlsplit] and [_splitparams] (scheme,
    network location up to the first of [/?#], fragment, query, parameters
    of the last path segment), with the [ValueError] for a network location
    whose square brackets do not match.  The clean-up of control characters
    and the checks of a bracketed host and of a non-ASCII network location
    are left out; the theorems of this file do not depend on this instance,
    they hold for every [urlparse]. *)
Module UrlRef.

Definition scheme_chars : string :=
  "abcdefghijklmnopqrstuvwxyzABCDEFGHIJKLMNOPQRSTUVWXYZ0123456789+-.".

Definition uses_params : list string :=
  [""; "ftp"; "hdl"; "prospero"; "http"; "imap"; "https"; "shttp"; "rtsp";
   "rtspu"; "sip"; "sips"; "mms"; "sftp"; "tel"].

Definition is_ascii_alpha (c : ascii) : bool :=
  let n := nat_of_ascii c in
  ((65 <=? n)%nat && (n <=? 90)%nat) || ((97 <=? n)%nat && (n <=? 122)%nat).

Definition split_scheme (url : string) : string * string :=
  let i := PyStr.find ":" url in
  match url with
  | String c0 _ =>
      if (i >? 0)%Z && is_ascii_alpha c0
         && PyStr.forallb (fun c => PyStr.mem c scheme_chars) (PyStr.take (Z.to_nat i) url)
      then (PyStr.lower (PyStr.take (Z.to_nat i) url), PyStr.drop (Z.to_nat (i + 1)) url)
      else (EmptyString, url)
  | EmptyString => (EmptyString, url)
  end.

(** Length of the longest prefix without any of [/], [?], [#]. *)
Fixpoint netloc_end (s : string) : nat :=
  match s with
  | EmptyString => O
  | String c s' => if PyStr.mem c "/?#" then O else S (netloc_end s')
  end.

Definition split_netloc (url : string) : option (string * string) :=
  if String.prefix "//" url then
    let rest := PyStr.drop 2 url in
    let n := netloc_end rest in
    let nl := PyStr.take n rest in
    if (PyStr.mem "[" nl && negb (PyStr.mem "]" nl))
       || (PyStr.mem "]" nl && negb (PyStr.mem "[" nl))
    then None
    else Some (nl, PyStr.drop n rest)
  else Some (EmptyString, url).

(** [url.split(c, 1)] when [c] occurs in [url]. *)
Definition split_at (c : string) (url : string) : string * string :=
  match PyStr.cut c url with
  | Some (a, b) => (a, b)
  | None => (url, EmptyString)
  end.

Definition splitparams (url : string) : string * string :=
  let slash := PyStr.rfind "/" url in
  let from := if (slash <? 0)%Z then 0%Z else slash in
  let tail := PyStr.drop (Z.to_nat from) url in
  let j := PyStr.find ";" tail in
  if (j <? 0)%Z then (url, EmptyString)
  else (PyStr.take (Z.to_nat (from + j)) url, PyStr.drop (Z.to_nat (from + j + 1)) url).

Definition urlparse (url : string) : option ParseResult :=
  let '(sch, url1) := split_scheme url in
  match split_netloc url1 with
  | None => None
  | Some (nl, url2) =>
      let '(url3, frag) := split_at "#" url2 in
      let '(url4, qry) := split_at "?" url3 in
      let '(pth, prm) :=
        if existsb (String.eqb sch) uses_params && PyStr.mem ";" url4
        then splitparams url4 else (url4, EmptyString) in
      Some (mkParseResult sch nl pth prm qry frag)
  end.

End UrlRef.

(* ===================================================================== *)
(** ** The parsed manifest *)
(* ===================================================================== *)

(** What [json.load] returns: [None], [bool], [int], [float], [str], [list]
    and [dict] (an association list in insertion order, looked up by its
    first binding of a key). *)
#[local] Set Warnings "-register-all".
Inductive json : Type :=
| JNull
| JBool (b : bool)
| JInt (z : Z)
| JFloat (f : spec_float)
| JStr (s : string)
| JArr (l : list json)
| JObj (kvs : list (string * json)).
#[local] Set Warnings "register-all".

Module Py.

(** [bool(v)]: [None], [False], zero, and the empty string, list and dict
    are false. *)
Definition truthy (v : json) : bool :=
  match v with
  | JNull => false
  | JBool b => b
  | JInt z => negb (z =? 0)%Z
  | JFloat (S754_zero _) => false
  | JFloat _ => true
  | JStr s => negb (String.eqb s "")
  | JArr l => match l with [] => false | _ => true end
  | JObj kvs => match kvs with [] => false | _ => true end
  end.

Fixpoint assoc (k : string) (kvs : list (string * json)) : option json :=
  match kvs with
  | [] => None
  | (k', v) :: rest => if String.eqb k' k then Some v else assoc k rest
  end.

(** [v.get(k, default)]: only a dict has the method. *)
Definition get (v : json) (k : string) (default : json) : outcome json :=
  match v with
  | JObj kvs => Ret (match assoc k kvs with Some x => x | None => default end)
  | _ => Raise AttributeError
  end.

(** [len(v)] *)
Definition len (v : json) : outcome nat :=
  match v with
  | JArr l => Ret (List.length l)
  | JStr s => Ret (String.length s)
  | JObj kvs => Ret (List.length kvs)
  | _ => Raise TypeError
  end.

Fixpoint chars (s : string) : list json :=
  match s with
  | EmptyString => []
  | String c s' => JStr (String c EmptyString) :: chars s'
  end.

(** The values [for item in v] goes through: the elements of a list, the
    characters of a string, the keys of a dict. *)
Definition iter (v : json) : outcome (list json) :=
  match v with
  | JArr l => Ret l
  | JStr s => Ret (chars s)
  | JObj kvs => Ret (map (fun kv => JStr (fst kv)) kvs)
  | _ => Raise TypeError
  end.

(** [l[i]] on a list of strings *)
Definition index (l : list string) (i : nat) : outcome string :=
  match nth_error l i with
  | Some x => Ret x
  | None => Raise IndexError
  end.

End Py.

(* ===================================================================== *)
(** ** Events, environment and world *)
(* ===================================================================== *)

(** One constructor per [print] call of the script, carrying the values it
    formats (the text of a caught exception is left out). *)
Inductive message : Type :=
| MStart                                      (* line 70 *)
| MRule                                       (* lines 71, 93, 136 *)
| MDownloadDir (dir : string)                 (* line 79 *)
| MLoading (file : string)                    (* line 82 *)
| MLoadError (file : string)                  (* line 21 *)
| MFound (total : nat)                        (* line 92 *)
| MProcessing (i total : nat) (name : json)   (* line 106 *)
| MMint (mint_address : json)                 (* line 107 *)
| MSkipMissing                                (* line 110 *)
| MAlreadyExists (filename : string) (size : nat)  (* line 122 *)
| MDownloading (name : string)                (* line 46 *)
| MDownloaded (name : string) (size : nat)    (* line 55 *)
| MAttemptFailed (number : Z)                 (* line 59 *)
| MGaveUp (max_retries : Z)                   (* line 63 *)
| MSummaryTitle                               (* line 137 *)
| MSuccessful (n : nat)                       (* line 138 *)
| MFailed (n : nat)                           (* line 139 *)
| MSkipped (n : nat)                          (* line 140 *)
| MTotal (n : nat)                            (* line 141 *)
| MLocation (dir : string)                    (* line 142 *)
| MCongrats (n : nat)                         (* line 145 *)
| MRetryHint (n : nat).                       (* line 148 *)

(** What the run does to the outside, in the order it does it. *)
Inductive event : Type :=
| EvPrint (m : message)
| EvMkdir (dir : string)
| EvLoad (file : string)
| EvGet (url : string) (user_agent : string) (timeout : Z)
| EvSleep (seconds : Q)
| EvWrite (filepath : string).

(** The answer to one [requests.get]: a response with its status code and
    body, or a [RequestException] raised by the call itself (connection
    error, timeout, invalid URL). *)
Inductive response : Type :=
| Response (status_code : Z) (content : string)
| RequestError.

(** What the disk does to one [open(filepath, 'wb')] followed by
    [f.write(content)]: it works, the file cannot be opened, or the file is
    created and the write breaks off after [written]. *)
Inductive disk_fault : Type :=
| NoFault
| OpenFault
| WriteFault (written : string).

Record world : Type := mkWorld {
  files : gmap string string;   (* existing path |-> what it holds *)
  trace : list event            (* oldest event first *)
}.

Record Env : Type := mkEnv {
  (** [urllib.parse.urlparse] on a [str]; [None] when it raises [ValueError]. *)
  urlparse : string -> option ParseResult;
  (** [str(v)] for a value that is not a [str]. *)
  str_of : json -> string;
  (** [open(file)] and [json.load]; [None] when either raises. *)
  json_load : string -> option json;
  (** Does [Path(dir).mkdir(exist_ok=True)] raise? *)
  mkdir_fault : string -> bool;
  (** The answer to a GET for a URL, given everything that happened before. *)
  requests_get : list event -> string -> response;
  (** The fault of the disk on a write, given the world it happens in. *)
  write_fault : world -> string -> string -> disk_fault;
  (** [os.getcwd()] *)
  getcwd : string
}.

(* ===================================================================== *)
(** ** Computations *)
(* ===================================================================== *)

Definition M (A : Type) : Type := world -> outcome A * world.

#[global] Instance outcome_ret : MRet outcome := fun A a => Ret a.
#[global] Instance outcome_bind : MBind outcome := fun A B k o =>
  match o with
  | Ret a => k a
  | Raise e => Raise e
  end.

#[global] Instance M_ret : MRet M := fun A a w => (Ret a, w).
#[global] Instance M_bind : MBind M := fun A B k m w =>
  match m w with
  | (Ret a, w') => k a w'
  | (Raise e, w') => (Raise e, w')
  end.

(** A pure result or exception as a computation. *)
Definition lift {A : Type} (o : outcome A) : M A := fun w => (o, w).

Definition log (e : event) (w : world) : world :=
  mkWorld (files w) (trace w ++ [e]).

Definition emit (e : event) : M unit := fun w => (Ret tt, log e w).

Definition print (m : message) : M unit := emit (EvPrint m).

(** [time.sleep(seconds)] *)
Definition sleep (seconds : Q) : M unit := emit (EvSleep seconds).

(** [os.path.exists(filepath)]: true of every path on the disk, be it a
    file or a directory. *)
Definition path_exists (filepath : string) : M bool := fun w =>
  (Ret (match files w !! filepath with Some _ => true | None => false end), w).

(** [os.path.getsize(filepath)] *)
Definition getsize (filepath : string) : M nat := fun w =>
  match files w !! filepath with
  | Some content => (Ret (String.length content), w)
  | None => (Raise OSError, w)
  end.

Section Script.

Variable E : Env.

(** [Path(dir).mkdir(exist_ok=True)] *)
Definition mkdir (dir : string) : M unit := fun w =>
  (if mkdir_fault E dir then Raise OSError else Ret tt, log (EvMkdir dir) w).

Definition USER_AGENT : string :=
  "Mozilla/5.0 (Macintosh; Intel Mac OS X 10_15_7) AppleWebKit/537.36 (KHTML, like Gecko) Chrome/91.0.4472.124 Safari/537.36".

(** [requests.get(url, headers=headers, timeout=30)] *)
Definition http_get (url : string) : M response := fun w =>
  (Ret (requests_get E (trace w) url), log (EvGet url USER_AGENT 30) w).

(** [response.raise_for_status()]: the body of a response whose status is
    not an error; [None] for a status from 400 to 599 and for a call that
    raised, both a [RequestException]. *)
Definition raise_for_status (r : response) : option string :=
  match r with
  | Response status_code content =>
      if (400 <=? status_code)%Z && (status_code <? 600)%Z then None
      else Some content
  | RequestError => None
  end.

(** [with open(filepath, 'wb') as f: f.write(content)], for a [filepath]
    without NUL character: what can go wrong is up to the disk. *)
Definition write_file (filepath content : string) : M unit := fun w =>
  match write_fault E w filepath content with
  | NoFault =>
      (Ret tt, mkWorld (<[filepath := content]> (files w)) (trace w ++ [EvWrite filepath]))
  | OpenFault =>
      (Raise OSError, log (EvWrite filepath) w)
  | WriteFault written =>
      (Raise OSError, mkWorld (<[filepath := written]> (files w)) (trace w ++ [EvWrite filepath]))
  end.

(** [str(v)], as an f-string formats a value *)
Definition py_str (v : json) : string :=
  match v with
  | JStr s => s
  | _ => str_of E v
  end.

(** Lines 14-22. *)
Definition load_collection_data (json_file : string) : M json :=
  emit (EvLoad json_file) ;;
  match json_load E json_file with
  | Some data => mret data
  | None => print (MLoadError json_file) ;; mret JNull
  end.

(** Lines 24-36, for a [url] that is a [str]. *)
Definition get_file_extension_from_url (url : string) : outcome string :=
  match urlparse E url with
  | None => Raise ValueError
  | Some parsed =>
      let path := path parsed in
      if PyStr.contains "?ext=" url then
        piece ← Py.index (PyStr.split "?ext=" url) 1 ;
        ext ← Py.index (PyStr.split "&" piece) 0 ;
        mret ("." +:+ ext)
      else
        let '(_, ext) := OsPath.splitext path in
        mret (if negb (String.eqb ext "") then ext else ".png")
  end.

(** The loop of lines 44-66: [n] iterations are left, the current one has
    index [attempt]. *)
Fixpoint download_attempts (url filepath : string) (max_retries : Z)
         (n : nat) (attempt : Z) : M bool :=
  match n with
  | O => mret false
  | S n' =>
      print (MDownloading (OsPath.basename filepath)) ;;
      response ← http_get url ;
      match raise_for_status response with
      | Some content =>
          write_file filepath content ;;
          print (MDownloaded (OsPath.basename filepath) (String.length content)) ;;
          mret true
      | None =>
          print (MAttemptFailed (attempt + 1)) ;;
          if (attempt <? max_retries - 1)%Z
          then sleep 2 ;; download_attempts url filepath max_retries n' (attempt + 1)
          else print (MGaveUp max_retries) ;; mret false
      end
  end.

(** Lines 38-66: [for attempt in range(max_retries)]. *)
Definition download_image (url filepath : string) (max_retries : Z) : M bool :=
  download_attempts url filepath max_retries (Z.to_nat max_retries) 0.

(** The run counters of lines 96-98. *)
Record counters : Type := mkCounters {
  successful_downloads : nat;
  failed_downloads : nat;
  skipped_downloads : nat
}.

Definition json_file : string := "collection.json".
Definition download_dir : string := "nft_images".

(** Lines 102-104: the identifier, the image URL and the display name of
    an [item]. *)
Definition entry_fields (item : json) : outcome (json * json * json) :=
  mint_address ← Py.get item "id" (JStr "") ;
  content ← Py.get item "content" (JObj []) ;
  links ← Py.get content "links" (JObj []) ;
  image_url ← Py.get links "image" (JStr "") ;
  content' ← Py.get item "content" (JObj []) ;
  metadata ← Py.get content' "metadata" (JObj []) ;
  nft_name ← Py.get metadata "name" (JStr "Unknown") ;
  mret (mint_address, image_url, nft_name).

(** The body of the loop of lines 101-133 for one [item], with [i] its
    number from 1 and [c] the counters before it; the result is the
    counters after it. *)
Definition process_item (total_count i : nat) (item : json) (c : counters)
  : M counters :=
  '(mint_address, image_url, nft_name) ← lift (entry_fields item) ;
  print (MProcessing i total_count nft_name) ;;
  print (MMint mint_address) ;;
  if negb (Py.truthy mint_address) || negb (Py.truthy image_url) then
    print MSkipMissing ;;
    mret (mkCounters (successful_downloads c) (failed_downloads c)
                     (S (skipped_downloads c)))
  else
    match image_url with
    | JStr url =>
        file_ext ← lift (get_file_extension_from_url url) ;
        let filename := py_str mint_address +:+ file_ext in
        let filepath := OsPath.join download_dir filename in
        present ← path_exists filepath ;
        if present : bool then
          file_size ← getsize filepath ;
          print (MAlreadyExists filename file_size) ;;
          mret (mkCounters (S (successful_downloads c)) (failed_downloads c)
                           (skipped_downloads c))
        else
          ok ← download_image url filepath 3 ;
          let c' :=
            if ok : bool
            then mkCounters (S (successful_downloads c)) (failed_downloads c)
                            (skipped_downloads c)
            else mkCounters (successful_downloads c) (S (failed_downloads c))
                            (skipped_downloads c) in
          sleep (1 # 2) ;;
          mret c'
    | _ =>
        (* [urlparse] of a true value that is not a [str] fails on its
           missing [decode] method *)
        lift (Raise AttributeError)
    end.

(** The loop of lines 101-133 over the items that are left. *)
Fixpoint process_items (total_count i : nat) (items : list json) (c : counters)
  : M counters :=
  match items with
  | [] => mret c
  | item :: rest =>
      c' ← process_item total_count i item c ;
      process_items total_count (S i) rest c'
  end.

(** [os.path.abspath(dir)] for a relative [dir] that needs no
    normalisation. *)
Definition abspath (dir : string) : string := OsPath.join (getcwd E) dir.

(** Lines 68-133 of [main]: everything before the final summary.  The
    result is [None] when [main] returns at line 86, and the final
    counters with [total_count] when the loop has ended. *)
Definition main_loop : M (option (counters * nat)) :=
  print MStart ;;
  print MRule ;;
  mkdir download_dir ;;
  print (MDownloadDir download_dir) ;;
  print (MLoading json_file) ;;
  collection_data ← load_collection_data json_file ;
  if negb (Py.truthy collection_data) then mret None
  else
    result ← lift (Py.get collection_data "result" (JObj [])) ;
    items ← lift (Py.get result "items" (JArr [])) ;
    total_count ← lift (Py.len items) ;
    print (MFound total_count) ;;
    print MRule ;;
    elements ← lift (Py.iter items) ;
    c ← process_items total_count 1 elements (mkCounters 0 0 0) ;
    mret (Some (c, total_count)).

(** Lines 135-148 of [main]: the final summary. *)
Definition final_summary (c : counters) (total_count : nat) : M unit :=
  print MRule ;;
  print MSummaryTitle ;;
  print (MSuccessful (successful_downloads c)) ;;
  print (MFailed (failed_downloads c)) ;;
  print (MSkipped (skipped_downloads c)) ;;
  print (MTotal total_count) ;;
  print (MLocation (abspath download_dir)) ;;
  (if (0 <? successful_downloads c)%nat
   then print (MCongrats (successful_downloads c)) else mret tt) ;;
  (if (0 <? failed_downloads c)%nat
   then print (MRetryHint (failed_downloads c)) else mret tt).

(** Lines 68-148. *)
Definition main : M unit :=
  r ← main_loop ;
  match r with
  | None => mret tt
  | Some (c, total_count) => final_summary c total_count
  end.

End Script.

(* ===================================================================== *)
(** ** The words of the specification *)
(* ===================================================================== *)

Module SpecWords.

(** "Treat any non-success HTTP status as a failure for that attempt
    (equivalent to raising on non-2xx)", and a connection error or timeout
    as well. *)
Definition failed_attempt (r : response) : bool :=
  match r with
  | Response status_code _ => negb ((200 <=? status_code)%Z && (status_code <? 300)%Z)
  | RequestError => true
  end.

(** "the substring between [?ext=] and the next [&] or end-of-string" *)
Definition ext_value (url : string) : string :=
  match PyStr.cut "?ext=" url with
  | Some (_, after) => PyStr.before "&" after
  | None => EmptyString
  end.

(** "substring from the last dot of the last path segment" *)
Definition last_dot_ext (path : string) : string :=
  let segment := OsPath.basename path in
  let i := PyStr.rfind "." segment in
  if (i <? 0)%Z then EmptyString else PyStr.drop (Z.to_nat i) segment.

(** Does [s] consist of dots only? *)
Definition only_dots (s : string) : bool :=
  PyStr.forallb (fun c => Ascii.eqb c ".") s.

(** The three-step policy of the specification, for a URL whose path
    component is [path]. *)
Definition extInfer (path url : string) : string :=
  if PyStr.contains "?ext=" url then "." +:+ ext_value url
  else if negb (String.eqb (last_dot_ext path) "") then last_dot_ext path
       else ".png".

(** The value at a nested path of keys; [None] when the path is absent. *)
Fixpoint json_path (keys : list string) (d : json) : option json :=
  match keys with
  | [] => Some d
  | k :: keys' =>
      match d with
      | JObj kvs =>
          match Py.assoc k kvs with
          | Some v => json_path keys' v
          | None => None
          end
      | _ => None
      end
  end.

End SpecWords.

(* ===================================================================== *)
(** ** Reading a log *)
(* ===================================================================== *)

Definition is_get (e : event) : bool :=
  match e with EvGet _ _ _ => true | _ => false end.

Definition is_sleep (e : event) : bool :=
  match e with EvSleep _ => true | _ => false end.

Definition is_write (e : event) : bool :=
  match e with EvWrite _ => true | _ => false end.

(** The network calls and the waits of a log, in order. *)
Definition net_events (evs : list event) : list event :=
  List.filter (fun e => is_get e || is_sleep e) evs.

Definition count_gets (evs : list event) : nat :=
  List.length (List.filter is_get evs).

(** [n] attempts with a wait between consecutive ones. *)
Fixpoint attempts_with_waits (attempt wait : event) (n : nat) : list event :=
  match n with
  | O => []
  | S O => [attempt]
  | S n' => attempt :: wait :: attempts_with_waits attempt wait n'
  end.

(** The one counter an entry moves. *)
Definition count_successful (c : counters) : counters :=
  mkCounters (S (successful_downloads c)) (failed_downloads c) (skipped_downloads c).
Definition count_failed (c : counters) : counters :=
  mkCounters (successful_downloads c) (S (failed_downloads c)) (skipped_downloads c).
Definition count_skipped (c : counters) : counters :=
  mkCounters (successful_downloads c) (failed_downloads c) (S (skipped_downloads c)).

(* ===================================================================== *)
(** ** Sample environments and manifests for concrete runs *)
(* ===================================================================== *)

Module Sample.

(** [str(v)] for [None], [bool] and [int]; the runs below name their files
    after strings, so the other values are not rendered. *)
Definition str_of (v : json) : string :=
  match v with
  | JNull => "None"
  | JBool true => "True"
  | JBool false => "False"
  | JInt z => pretty z
  | _ => EmptyString
  end.

(** An environment around a manifest, a server and a disk. *)
Definition env (manifest : option json)
           (server : list event -> string -> response)
           (disk : world -> string -> string -> disk_fault) : Env :=
  mkEnv UrlRef.urlparse str_of (fun _ => manifest) (fun _ => false)
        server disk "/srv/app".

Definition good_disk : world -> string -> string -> disk_fault :=
  fun _ _ _ => NoFault.
Definition bad_disk : world -> string -> string -> disk_fault :=
  fun _ _ _ => OpenFault.

Definition server_ok : list event -> string -> response :=
  fun _ _ => Response 200 "IMAGE".
Definition server_404 : list event -> string -> response :=
  fun _ _ => Response 404 "".
(** A server that answers every request with 304 (not modified) and no
    body. *)
Definition server_304 : list event -> string -> response :=
  fun _ _ => Response 304 "".
(** A server that is down for the first [n] requests it gets. *)
Definition server_down_for (n : nat) : list event -> string -> response :=
  fun tr _ => if (count_gets tr <? n)%nat then RequestError else Response 200 "IMAGE".

Definition entry (id url name : string) : json :=
  JObj [("id", JStr id);
        ("content", JObj [("links", JObj [("image", JStr url)]);
                          ("metadata", JObj [("name", JStr name)])])].

Definition entry_without_id (url : string) : json :=
  JObj [("content", JObj [("links", JObj [("image", JStr url)])])].

Definition manifest (items : list json) : json :=
  JObj [("result", JObj [("items", JArr items)])].

Definition empty_world : world := mkWorld ∅ [].

(** An environment for the functions that only use the library part. *)
Definition lib : Env := env None server_ok good_disk.

End Sample.

(** The world [w] after the further events [evs], the files untouched. *)
Definition after (w : world) (evs : list event) : world :=
  mkWorld (files w) (trace w ++ evs).

(** [w'] is reached from [w] by the events [evs], and no file of [w] is
    missing in [w']. *)
Definition extends (w w' : world) (evs : list event) : Prop :=
  trace w' = trace w ++ evs /\
  forall p, is_Some (files w !! p) -> is_Some (files w' !! p).

(** Every wait in [evs] lasts [d]. *)
Definition waits_are (d : Q) (evs : list event) : Prop :=
  forall q, In (EvSleep q) evs -> q = d.

(** An event that neither uses the network, nor writes a file, nor waits. *)
Definition is_quiet (e : event) : bool :=
  match e with
  | EvPrint _ | EvMkdir _ | EvLoad _ => true
  | EvGet _ _ _ | EvSleep _ | EvWrite _ => false
  end.

(** The events of the final summary (lines 135-148). *)
Definition summary_events (E : Env) (c : counters) (total : nat) : list event :=
  [EvPrint MRule; EvPrint MSummaryTitle;
   EvPrint (MSuccessful (successful_downloads c));
   EvPrint (MFailed (failed_downloads c));
   EvPrint (MSkipped (skipped_downloads c));
   EvPrint (MTotal total);
   EvPrint (MLocation (abspath E download_dir))]
  ++ (if (0 <? successful_downloads c)%nat
      then [EvPrint (MCongrats (successful_downloads c))] else [])
  ++ (if (0 <? failed_downloads c)%nat
      then [EvPrint (MRetryHint (failed_downloads c))] else []).

(** The number of entries the counters account for. *)
Definition counted (c : counters) : nat :=
  successful_downloads c + failed_downloads c + skipped_downloads c.

(** The events of [main] up to the loading of the manifest (lines 70-83). *)
Definition prelude_events : list event :=
  [EvPrint MStart; EvPrint MRule; EvMkdir download_dir;
   EvPrint (MDownloadDir download_dir); EvPrint (MLoading json_file);
   EvLoad json_file].

(** The end-to-end scenario of the specification: a plain entry, an entry
    without identifier, and an entry whose server fails twice before it
    answers. *)
Module Scenario.

Definition flaky_url : string := "https://cdn.example/three?ext=webp".

Definition count_gets_for (url : string) (tr : list event) : nat :=
  List.length (List.filter
    (fun e => match e with EvGet u _ _ => String.eqb u url | _ => false end) tr).

Definition server : list event -> string -> response :=
  fun tr url =>
    if String.eqb url flaky_url && (count_gets_for url tr <? 2)%nat
    then Response 503 ""
    else Response 200 "IMAGE".

Definition items : list json :=
  [Sample.entry "Mint1" "https://cdn.example/one.png" "One";
   Sample.entry_without_id "https://cdn.example/two.png";
   Sample.entry "Mint3" flaky_url "Three"].

Definition env : Env :=
  Sample.env (Some (Sample.manifest items)) server Sample.good_disk.

End Scenario.

(** The counters [cx'] differ from [cx] as [c'] differs from [c], and no
    failure is counted. *)
Definition same_move (c c' cx cx' : counters) : Prop :=
  successful_downloads cx' + successful_downloads c
  = successful_downloads cx + successful_downloads c'
  /\ failed_downloads cx' = failed_downloads cx
  /\ skipped_downloads cx' + skipped_downloads c
     = skipped_downloads cx + skipped_downloads c'.

(** One entry against a server that is down for the first three requests:
    the first run gives up on it, the second run downloads it. *)
Module Outage.

Definition env : Env :=
  Sample.env (Some (Sample.manifest [Sample.entry "A" "https://x.com/a.png" "Ape"]))
             (Sample.server_down_for 3) Sample.good_disk.

Definition first_run : outcome unit * world := main env Sample.empty_world.
Definition second_run : outcome unit * world := main env (snd first_run).

End Outage.

(** An entry the loop can handle without an exception: its fields can be
    read and, unless it is skipped, its URL is a string that [urlparse]
    accepts. *)
Definition usable (E : Env) (item : json) : Prop :=
  exists mint_address image_url nft_name,
    entry_fields item = Ret (mint_address, image_url, nft_name)
    /\ (negb (Py.truthy mint_address) || negb (Py.truthy image_url) = true
        \/ exists url parsed, image_url = JStr url /\ urlparse E url = Some parsed).

(** A disk that never refuses a write. *)
Definition reliable_disk (E : Env) : Prop :=
  forall w filepath content, write_fault E w filepath content = NoFault.

(** A request that line 58 catches: the call raised, or the status of the
    answer is from 400 to 599. *)
Definition request_fails (r : response) : Prop :=
  r = RequestError
  \/ exists status_code content,
       r = Response status_code content /\ (400 <= status_code < 600)%Z.

(** A path without NUL character, the only paths [open] accepts. *)
Definition nul_free (filepath : string) : bool :=
  negb (PyStr.mem Ascii.zero filepath).

(** The destination of an entry, when it has one, is a path that [open]
    accepts. *)
Definition destination_accepted (E : Env) (item : json) : Prop :=
  forall mint_address nft_name url file_ext,
    entry_fields item = Ret (mint_address, JStr url, nft_name) ->
    get_file_extension_from_url E url = Ret file_ext ->
    nul_free (OsPath.join download_dir (py_str E mint_address +:+ file_ext)) = true.

(** What [download_image] for [url] and [filepath] may do: print, ask for
    [url] with the fixed header and timeout, wait 2, write [filepath]. *)
Definition fetch_event (url filepath : string) (e : event) : Prop :=
  match e with
  | EvPrint _ => True
  | EvGet u user_agent timeout => u = url /\ user_agent = USER_AGENT /\ timeout = 30%Z
  | EvSleep seconds => seconds = 2%Q
  | EvWrite p => p = filepath
  | EvMkdir _ | EvLoad _ => False
  end.

Definition count_writes (evs : list event) : nat :=
  List.length (List.filter is_write evs).

(** A value that [len] rejects: [None], a [bool] or a number. *)
Definition unsized (v : json) : bool :=
  match v with
  | JNull | JBool _ | JInt _ | JFloat _ => true
  | JStr _ | JArr _ | JObj _ => false
  end.

(** A manifest whose [result.items] is [items], whatever [items] is. *)
Definition manifest_with (items : json) : json :=
  JObj [("result", JObj [("items", items)])].

(* ===================================================================== *)
(** ** Facts about the string functions *)
(* ===================================================================== *)

Module PyStrFacts.
Import PyStr.

Lemma app_cons c s t : String c s +:+ t = String c (s +:+ t).
Proof. reflexivity. Qed.

Lemma prefix_cons a s b t :
  String.prefix (String a s) (String b t)
  = if ascii_dec a b then String.prefix s t else false.
Proof. reflexivity. Qed.

Lemma prefix_nil s : String.prefix "" s = true.
Proof. destruct s; reflexivity. Qed.

Lemma prefix_drop sep s :
  String.prefix sep s = true -> s = sep +:+ drop (String.length sep) s.
Proof.
  revert s. induction sep as [|c sep IH]; intros [|d s] H; simpl in *;
    try reflexivity; try discriminate.
  destruct (ascii_dec c d) as [->|]; [|discriminate].
  rewrite app_cons. f_equal. now apply IH.
Qed.

Lemma cut_eq sep s :
  cut sep s =
  if String.prefix sep s then Some (EmptyString, drop (String.length sep) s)
  else match s with
       | EmptyString => None
       | String c s' =>
           match cut sep s' with
           | Some (a, b) => Some (String c a, b)
           | None => None
           end
       end.
Proof. destruct s; reflexivity. Qed.

Lemma cut_app sep s a b :
  cut sep s = Some (a, b) -> s = a +:+ sep +:+ b.
Proof.
  revert a b. induction s as [|c s IH]; intros a b; rewrite cut_eq;
    destruct (String.prefix sep _) eqn:Hp;
    try (intros [= <- <-]; now apply prefix_drop); try discriminate.
  destruct (cut sep s) as [[a' b']|]; [|discriminate].
  intros [= <- <-]. rewrite app_cons. f_equal. now apply IH.
Qed.

Lemma str_length_app s t :
  String.length (s +:+ t) = String.length s + String.length t.
Proof.
  induction s as [|c s IH]; [reflexivity|].
  rewrite app_cons. simpl. now rewrite IH.
Qed.

Lemma cut_length sep s a b :
  cut sep s = Some (a, b) ->
  String.length s = String.length a + String.length sep + String.length b.
Proof.
  intros H. rewrite (cut_app _ _ _ _ H) at 1. rewrite !str_length_app. lia.
Qed.

(** [sub in s] holds exactly when [s] can be cut at [sub]. *)
Lemma contains_cut sep s :
  contains sep s = match cut sep s with Some _ => true | None => false end.
Proof.
  induction s as [|c s IH]; [destruct sep; reflexivity|].
  rewrite cut_eq.
  change (contains sep (String c s))
    with (String.prefix sep (String c s) || contains sep s).
  destruct (String.prefix sep (String c s)); simpl; [reflexivity|].
  rewrite IH. destruct (cut sep s) as [[a b]|]; reflexivity.
Qed.

(** More rounds than characters change nothing: [split] has enough fuel. *)
Lemma split_fuel_enough sep s n :
  sep <> EmptyString -> String.length s <= n ->
  split_fuel n sep s = split sep s.
Proof.
  intros Hsep. unfold split.
  remember (String.length s) as m eqn:Hm.
  revert s n Hm. induction m as [m IH] using lt_wf_ind. intros s n Hm Hn.
  destruct n as [|n]; destruct m as [|m]; simpl; try lia; try reflexivity.
  - destruct (cut sep s) as [[a b]|] eqn:Hc; [|reflexivity].
    apply cut_length in Hc. destruct sep; [congruence|]. simpl in Hc. lia.
  - destruct (cut sep s) as [[a b]|] eqn:Hc; [|reflexivity].
    f_equal. pose proof (cut_length _ _ _ _ Hc) as Hl.
    assert (0 < String.length sep) by (destruct sep; [congruence|simpl; lia]).
    rewrite (IH (String.length b)) by lia.
    symmetry. apply (IH (String.length b)); lia.
Qed.

Lemma split_cut sep s a b :
  sep <> EmptyString -> cut sep s = Some (a, b) ->
  split sep s = a :: split sep b.
Proof.
  intros Hsep Hc. pose proof (cut_length _ _ _ _ Hc) as Hl.
  assert (0 < String.length sep) by (destruct sep; [congruence|simpl; lia]).
  unfold split at 1. destruct (String.length s) as [|n] eqn:Hn; [lia|].
  simpl. rewrite Hc. f_equal. apply split_fuel_enough; [assumption|lia].
Qed.

Lemma split_no_cut sep s : cut sep s = None -> split sep s = [s].
Proof.
  intros Hc. unfold split. destruct (String.length s); simpl; [reflexivity|].
  now rewrite Hc.
Qed.

(** The first piece of a split is the text before the first separator. *)
Lemma split_head sep s :
  sep <> EmptyString -> exists rest, split sep s = before sep s :: rest.
Proof.
  intros Hsep. unfold before. destruct (cut sep s) as [[a b]|] eqn:Hc.
  - exists (split sep b). now apply split_cut.
  - exists []. now apply split_no_cut.
Qed.

Lemma prefix_app sep b : String.prefix sep (sep +:+ b) = true.
Proof.
  induction sep as [|c sep IH]; [apply prefix_nil|].
  rewrite app_cons, prefix_cons. destruct (ascii_dec c c); [exact IH|congruence].
Qed.

(** [cut] cuts at the leftmost occurrence: no occurrence of [sep] starts
    earlier in [s]. *)
Lemma cut_leftmost sep s a b :
  cut sep s = Some (a, b) ->
  forall a' b', s = a' +:+ sep +:+ b' -> String.length a <= String.length a'.
Proof.
  revert a. induction s as [|c s IH]; intros a; rewrite cut_eq;
    destruct (String.prefix sep _) eqn:Hp;
    try (intros [= <- <-] a' b' _; simpl; lia); try discriminate.
  destruct (cut sep s) as [[a0 b0]|] eqn:Hc; [|discriminate].
  intros [= <- <-] a' b' Hs. destruct a' as [|c' a'].
  - change ("" +:+ sep +:+ b') with (sep +:+ b') in Hs.
    rewrite Hs, prefix_app in Hp. discriminate.
  - rewrite app_cons in Hs. injection Hs as _ Hs.
    simpl. apply le_n_S. now apply (IH a0 eq_refl a' b').
Qed.

Lemma before_empty sep : sep <> EmptyString -> before sep "" = "".
Proof. unfold before. destruct sep; [congruence|]. reflexivity. Qed.

Lemma before_prefix sep s :
  String.prefix sep s = true -> before sep s = "".
Proof. unfold before. rewrite cut_eq. intros ->. reflexivity. Qed.

End PyStrFacts.

(* ===================================================================== *)
(** ** Facts about [os.path.splitext] *)
(* ===================================================================== *)

Module OsPathFacts.
Import PyStr.

Lemma rfind_from_spec c s :
  forall i last,
    rfind_from c i s last
    = if (rfind c s <? 0)%Z then last else (i + rfind c s)%Z.
Proof.
  unfold rfind. induction s as [|x s IH]; intros i last; simpl.
  - reflexivity.
  - rewrite (IH (i + 1)%Z), (IH 1%Z).
    destruct (rfind_from c 0 s (-1) <? 0)%Z eqn:Hs.
    + destruct (Ascii.eqb x c); simpl; [f_equal; lia|reflexivity].
    + apply Z.ltb_ge in Hs.
      destruct (1 + rfind_from c 0 s (-1) <? 0)%Z eqn:H1;
        [apply Z.ltb_lt in H1; lia|lia].
Qed.

Lemma rfind_cons c x s :
  rfind c (String x s)
  = if (rfind c s <? 0)%Z then (if Ascii.eqb x c then 0%Z else (-1)%Z)
    else (1 + rfind c s)%Z.
Proof.
  unfold rfind at 1. simpl. rewrite rfind_from_spec. reflexivity.
Qed.

Lemma rfind_bounds c s :
  (-1 <= rfind c s < Z.of_nat (String.length s))%Z.
Proof.
  induction s as [|x s IH].
  - unfold rfind. simpl. lia.
  - rewrite rfind_cons. simpl String.length.
    destruct (rfind c s <? 0)%Z eqn:Hs; [destruct (Ascii.eqb x c)|]; lia.
Qed.

Lemma drop_drop n m s : drop n (drop m s) = drop (m + n) s.
Proof.
  revert s. induction m as [|m IH]; intros s; [reflexivity|].
  destruct s as [|x s]; simpl; [destruct n; reflexivity|apply IH].
Qed.

Lemma drop_length n s : String.length (drop n s) = String.length s - n.
Proof.
  revert s. induction n as [|n IH]; intros [|x s]; simpl; auto with arith.
Qed.

(** Where the last dot of the path is, seen from its last segment. *)
Lemma last_dot_of_segment p :
  let sepIndex := rfind "/" p in
  let dotIndex := rfind "." p in
  let ds := rfind "." (OsPath.basename p) in
  ((0 <= ds)%Z -> dotIndex = (sepIndex + 1 + ds)%Z)
  /\ ((ds < 0)%Z -> (dotIndex <= sepIndex)%Z).
Proof.
  unfold OsPath.basename. induction p as [|x p IH]; cbv zeta in *.
  - unfold rfind. simpl. lia.
  - pose proof (rfind_bounds "/" p) as Hb.
    rewrite (rfind_cons "/" x p), (rfind_cons "." x p).
    destruct (rfind "/" p <? 0)%Z eqn:Hsep.
    + apply Z.ltb_lt in Hsep. assert (Hm : rfind "/" p = (-1)%Z) by lia.
      rewrite Hm in IH. simpl Z.to_nat in IH. simpl drop in IH.
      destruct (Ascii.eqb x "/") eqn:Hx.
      * simpl Z.to_nat. simpl drop.
        apply Ascii.eqb_eq in Hx. subst x. simpl Ascii.eqb.
        destruct (rfind "." p <? 0)%Z eqn:Hd;
          [apply Z.ltb_lt in Hd|apply Z.ltb_ge in Hd]; lia.
      * simpl Z.to_nat. simpl drop. rewrite (rfind_cons "." x p).
        destruct (rfind "." p <? 0)%Z; destruct (Ascii.eqb x "."); lia.
    + apply Z.ltb_ge in Hsep.
      replace (Z.to_nat (1 + rfind "/" p + 1)) with (S (Z.to_nat (rfind "/" p + 1)))
        by lia.
      simpl drop.
      destruct (rfind "." p <? 0)%Z eqn:Hd;
        [apply Z.ltb_lt in Hd|apply Z.ltb_ge in Hd];
        destruct (Ascii.eqb x "."); lia.
Qed.

Lemma take_one_drop s :
  take 1 s = match s with
             | EmptyString => EmptyString
             | String c _ => String c EmptyString
             end.
Proof. destruct s; reflexivity. Qed.

(** The loop over the leading dots, read on the last segment [seg] of [p]
    that starts at index [base]. *)
Lemma skip_leading_dots_spec p dotIndex base seg :
  (0 <= base)%Z -> seg = drop (Z.to_nat base) p ->
  forall fuel j,
    j + fuel <= String.length seg ->
    OsPath.skip_leading_dots p dotIndex fuel (base + Z.of_nat j)
    = if SpecWords.only_dots (take fuel (drop j seg))
      then (p, EmptyString)
      else (take (Z.to_nat dotIndex) p, drop (Z.to_nat dotIndex) p).
Proof.
  intros Hbase Hseg. induction fuel as [|fuel IH]; intros j Hlen.
  - reflexivity.
  - simpl OsPath.skip_leading_dots. unfold slice.
    replace (Z.to_nat (base + Z.of_nat j + 1 - (base + Z.of_nat j))) with 1 by lia.
    replace (Z.to_nat (base + Z.of_nat j)) with (Z.to_nat base + j) by lia.
    rewrite <- drop_drop, <- Hseg, take_one_drop.
    replace (base + Z.of_nat j + 1)%Z with (base + Z.of_nat (S j))%Z by lia.
    rewrite IH by lia.
    assert (Hnext : drop (S j) seg = drop 1 (drop j seg))
      by (rewrite drop_drop; f_equal; lia).
    rewrite Hnext.
    pose proof (drop_length j seg) as Hdl.
    destruct (drop j seg) as [|c rest]; [simpl in Hdl; lia|].
    simpl. unfold SpecWords.only_dots. simpl.
    destruct (Ascii.eqb c "."); reflexivity.
Qed.

(** [os.path.splitext] in the words of the specification: the extension is
    the text from the last dot of the last path segment on, unless that
    segment has no dot or has only dots before its last dot; then it is
    empty. *)
Lemma splitext_ext p :
  snd (OsPath.splitext p)
  = let seg := OsPath.basename p in
    let ds := rfind "." seg in
    if (ds <? 0)%Z || SpecWords.only_dots (take (Z.to_nat ds) seg)
    then EmptyString
    else SpecWords.last_dot_ext p.
Proof.
  pose proof (last_dot_of_segment p) as [Hdot Hnodot]. cbv zeta in *.
  pose proof (rfind_bounds "/" p) as Hsep.
  pose proof (rfind_bounds "." (OsPath.basename p)) as Hds.
  unfold OsPath.splitext, SpecWords.last_dot_ext.
  destruct (rfind "." (OsPath.basename p) <? 0)%Z eqn:Hneg.
  - apply Z.ltb_lt in Hneg. specialize (Hnodot Hneg).
    destruct (rfind "." p >? rfind "/" p)%Z eqn:Hgt; [|reflexivity].
    apply Z.gtb_lt in Hgt. lia.
  - apply Z.ltb_ge in Hneg. specialize (Hdot Hneg).
    destruct (rfind "." p >? rfind "/" p)%Z eqn:Hgt.
    2:{ rewrite Z.gtb_ltb in Hgt. apply Z.ltb_ge in Hgt. lia. }
    replace (rfind "/" p + 1)%Z with (rfind "/" p + 1 + Z.of_nat 0)%Z by lia.
    rewrite (skip_leading_dots_spec p (rfind "." p) (rfind "/" p + 1)
               (OsPath.basename p)); [|lia|reflexivity|lia].
    replace (Z.to_nat (rfind "." p - (rfind "/" p + 1 + Z.of_nat 0)))
      with (Z.to_nat (rfind "." (OsPath.basename p))) by lia.
    simpl orb. change (drop 0 (OsPath.basename p)) with (OsPath.basename p).
    destruct (SpecWords.only_dots _); [reflexivity|]. simpl snd.
    unfold OsPath.basename at 2. rewrite drop_drop. f_equal. lia.
Qed.

End OsPathFacts.

(* ===================================================================== *)
(** ** Extension inference (lines 24-36) *)
(* ===================================================================== *)

Section ExtensionInference.

Variable E : Env.

Lemma question_ext_nonempty : "?ext=" <> EmptyString.
Proof. discriminate. Qed.

Lemma ampersand_nonempty : "&" <> EmptyString.
Proof. discriminate. Qed.

(** A URL with [?ext=]: the value runs from the first [?ext=] to the next
    [?ext=] or [&], whichever comes first, or to the end. *)
Lemma ext_from_query url parsed before after :
  urlparse E url = Some parsed ->
  PyStr.cut "?ext=" url = Some (before, after) ->
  get_file_extension_from_url E url
  = Ret ("." +:+ PyStr.before "&" (PyStr.before "?ext=" after)).
Proof.
  intros Hp Hc. unfold get_file_extension_from_url. rewrite Hp.
  rewrite PyStrFacts.contains_cut, Hc.
  rewrite (PyStrFacts.split_cut _ _ _ _ question_ext_nonempty Hc).
  destruct (PyStrFacts.split_head "?ext=" after question_ext_nonempty) as [r1 ->].
  destruct (PyStrFacts.split_head "&" (PyStr.before "?ext=" after)
              ampersand_nonempty) as [r2 Hr2].
  simpl. rewrite Hr2. reflexivity.
Qed.

(** A URL without [?ext=]: the extension of its path, or [.png]. *)
Lemma ext_from_path url parsed :
  urlparse E url = Some parsed ->
  PyStr.contains "?ext=" url = false ->
  get_file_extension_from_url E url
  = Ret (if negb (String.eqb (snd (OsPath.splitext (path parsed))) "")
         then snd (OsPath.splitext (path parsed)) else ".png").
Proof.
  intros Hp Hc. unfold get_file_extension_from_url. rewrite Hp, Hc.
  destruct (OsPath.splitext (path parsed)) as [root ext]. reflexivity.
Qed.

Lemma ext_rejected url :
  urlparse E url = None -> get_file_extension_from_url E url = Raise ValueError.
Proof. intros Hp. unfold get_file_extension_from_url. now rewrite Hp. Qed.

(** The function returns for every URL that [urlparse] accepts: the two
    list indexings of line 31 never fail. *)
Lemma ext_returns url parsed :
  urlparse E url = Some parsed ->
  exists ext, get_file_extension_from_url E url = Ret ext /\ ext <> EmptyString.
Proof.
  intros Hp. destruct (PyStr.contains "?ext=" url) eqn:Hc.
  - rewrite PyStrFacts.contains_cut in Hc.
    destruct (PyStr.cut "?ext=" url) as [[b a]|] eqn:Hcut; [|discriminate].
    eexists. split; [eapply ext_from_query; eassumption|discriminate].
  - eexists. split; [eapply ext_from_path; eassumption|].
    destruct (String.eqb (snd (OsPath.splitext (path parsed))) "") eqn:He; simpl.
    + discriminate.
    + intros Heq. rewrite Heq in He. discriminate.
Qed.

End ExtensionInference.

(** C2, as stated, fails on three kinds of URL.  With two [?ext=] the value
    stops at the second one, not at the next [&] or the end; a last path
    segment that only has its leading dot has no extension for
    [os.path.splitext], so the default is used; and a URL that [urlparse]
    rejects has no result at all. *)
Lemma extension_policy_counterexample :
  (get_file_extension_from_url Sample.lib "https://x.com/img?ext=gif?ext=png" = Ret ".gif"
   /\ SpecWords.extInfer "/img" "https://x.com/img?ext=gif?ext=png" = ".gif?ext=png")
  /\ (get_file_extension_from_url Sample.lib "https://x.com/path/.gif" = Ret ".png"
      /\ SpecWords.extInfer "/path/.gif" "https://x.com/path/.gif" = ".gif")
  /\ get_file_extension_from_url Sample.lib "http://[/?ext=gif" = Raise ValueError.
Proof. repeat split; vm_compute; reflexivity. Qed.

(** C2 (amended): for a URL that [urlparse] accepts, the extension follows
    the policy in order.  With [?ext=] in the URL it is a dot followed by the
    text between the first [?ext=] and the next [&], the next [?ext=] or the
    end of the string.  Otherwise it is the text from the last dot of the
    last segment of the path component on, provided that segment has a
    character other than a dot before its last dot (the extension of
    [os.path.splitext]).  Otherwise it is [.png].  The three URLs of the
    specification give [.gif], [.jpeg] and [.png]. *)
Theorem extension_policy (E : Env) (url : string) (parsed : ParseResult) :
  urlparse E url = Some parsed ->
  let segment := OsPath.basename (path parsed) in
  let dot := PyStr.rfind "." segment in
  (PyStr.contains "?ext=" url = true ->
   exists before after,
     PyStr.cut "?ext=" url = Some (before, after) /\
     get_file_extension_from_url E url
     = Ret ("." +:+ PyStr.before "&" (PyStr.before "?ext=" after)))
  /\ (PyStr.contains "?ext=" url = false ->
      (0 <= dot)%Z ->
      SpecWords.only_dots (PyStr.take (Z.to_nat dot) segment) = false ->
      get_file_extension_from_url E url = Ret (SpecWords.last_dot_ext (path parsed))
      /\ SpecWords.last_dot_ext (path parsed) = snd (OsPath.splitext (path parsed)))
  /\ (PyStr.contains "?ext=" url = false ->
      (dot < 0)%Z \/ SpecWords.only_dots (PyStr.take (Z.to_nat dot) segment) = true ->
      get_file_extension_from_url E url = Ret ".png")
  /\ get_file_extension_from_url Sample.lib "https://x.com/img?ext=gif" = Ret ".gif"
  /\ get_file_extension_from_url Sample.lib "https://x.com/path/file.jpeg" = Ret ".jpeg"
  /\ get_file_extension_from_url Sample.lib "https://x.com/path/noext" = Ret ".png".
Proof.
  intros Hp segment dot.
  pose proof (OsPathFacts.splitext_ext (path parsed)) as Hsplit.
  cbv zeta in Hsplit. fold segment in Hsplit. fold dot in Hsplit.
  split; [|split; [|split; [|repeat split; vm_compute; reflexivity]]].
  - intros Hc. rewrite PyStrFacts.contains_cut in Hc.
    destruct (PyStr.cut "?ext=" url) as [[b a]|] eqn:Hcut; [|discriminate].
    exists b, a. split; [reflexivity|]. exact (ext_from_query E url parsed b a Hp Hcut).
  - intros Hc Hdot Hname.
    assert (Hneg : (dot <? 0)%Z = false) by now apply Z.ltb_ge.
    rewrite Hneg, Hname in Hsplit. simpl in Hsplit.
    split; [|now symmetry].
    rewrite (ext_from_path E url parsed Hp Hc), Hsplit.
    unfold SpecWords.last_dot_ext. fold segment. fold dot. rewrite Hneg.
    pose proof (OsPathFacts.rfind_bounds "." segment) as Hb. fold dot in Hb.
    pose proof (OsPathFacts.drop_length (Z.to_nat dot) segment) as Hl.
    destruct (PyStr.drop (Z.to_nat dot) segment); [simpl in Hl; lia|reflexivity].
  - intros Hc Hno. rewrite (ext_from_path E url parsed Hp Hc), Hsplit.
    assert ((dot <? 0)%Z || SpecWords.only_dots (PyStr.take (Z.to_nat dot) segment)
            = true) as ->; [|reflexivity].
    destruct Hno as [Hneg | ->]; [|apply orb_true_r].
    apply Z.ltb_lt in Hneg. now rewrite Hneg.
Qed.

Lemma extension_policy_witness :
  urlparse Sample.lib "https://x.com/img?ext=gif&size=2"
  = Some (mkParseResult "https" "x.com" "/img" "" "ext=gif&size=2" "")
  /\ get_file_extension_from_url Sample.lib "https://x.com/img?ext=gif&size=2" = Ret ".gif".
Proof.
  split; [reflexivity|].
  destruct (extension_policy Sample.lib "https://x.com/img?ext=gif&size=2" _ eq_refl)
    as [H _].
  destruct (H eq_refl) as (b & a & Hcut & ->).
  vm_compute in Hcut. injection Hcut as <- <-. reflexivity.
Defined.

(** C9, as stated, fails when an earlier [?ext=] carries a value: the empty
    value of a later one is not looked at.  It also fails on a URL that
    [urlparse] rejects. *)
Lemma empty_ext_counterexample :
  (PyStr.contains "?ext=" "https://x.com/a?ext=gif?ext=" = true
   /\ "https://x.com/a?ext=gif?ext=" = "https://x.com/a?ext=gif" +:+ "?ext=" +:+ ""
   /\ get_file_extension_from_url Sample.lib "https://x.com/a?ext=gif?ext=" = Ret ".gif")
  /\ ("http://[/?ext=" = "http://[/" +:+ "?ext=" +:+ ""
      /\ get_file_extension_from_url Sample.lib "http://[/?ext=" = Raise ValueError).
Proof. repeat split; vm_compute; reflexivity. Qed.

(** C9 (amended): for a URL that [urlparse] accepts and in which the first
    [?ext=] is immediately followed by [&] or by the end of the string, the
    result is the lone dot ["."], whatever the path component is: neither
    the extension of the path nor [.png] is used. *)
Theorem empty_ext_is_lone_dot (E : Env) (url before after : string)
        (parsed : ParseResult) :
  urlparse E url = Some parsed ->
  PyStr.cut "?ext=" url = Some (before, after) ->
  after = EmptyString \/ String.prefix "&" after = true ->
  get_file_extension_from_url E url = Ret ".".
Proof.
  intros Hp Hc Hafter.
  rewrite (ext_from_query E url parsed before after Hp Hc).
  assert (PyStr.before "&" (PyStr.before "?ext=" after) = "") as ->; [|reflexivity].
  destruct Hafter as [->|Hamp]; [reflexivity|].
  apply PyStrFacts.before_prefix.
  destruct after as [|c after]; [discriminate|].
  rewrite PyStrFacts.prefix_cons in Hamp.
  destruct (ascii_dec "&" c) as [<-|]; [|discriminate].
  unfold PyStr.before. rewrite PyStrFacts.cut_eq.
  change (String.prefix "?ext=" (String "&" after)) with false.
  destruct (PyStr.cut "?ext=" after) as [[a b]|];
    rewrite PyStrFacts.prefix_cons; apply PyStrFacts.prefix_nil.
Qed.

Lemma empty_ext_is_lone_dot_witness :
  get_file_extension_from_url Sample.lib "https://x.com/path/file.jpeg?ext=&v=1" = Ret ".".
Proof.
  apply (empty_ext_is_lone_dot Sample.lib "https://x.com/path/file.jpeg?ext=&v=1"
           "https://x.com/path/file.jpeg" "&v=1"
           (mkParseResult "https" "x.com" "/path/file.jpeg" "" "ext=&v=1" ""));
    [reflexivity | reflexivity | right; reflexivity].
Defined.

(* ===================================================================== *)
(** ** Computations, step by step *)
(* ===================================================================== *)

Lemma bind_run {A B : Type} (m : M A) (k : A -> M B) (w : world) :
  (m ≫= k) w =
  match m w with
  | (Ret a, w') => k a w'
  | (Raise e, w') => (Raise e, w')
  end.
Proof. reflexivity. Qed.

Lemma bind_emit {B : Type} (e : event) (k : unit -> M B) (w : world) :
  (emit e ≫= k) w = k tt (log e w).
Proof. reflexivity. Qed.

Lemma bind_print {B : Type} (m : message) (k : unit -> M B) (w : world) :
  (print m ≫= k) w = k tt (log (EvPrint m) w).
Proof. reflexivity. Qed.

Lemma bind_sleep {B : Type} (q : Q) (k : unit -> M B) (w : world) :
  (sleep q ≫= k) w = k tt (log (EvSleep q) w).
Proof. reflexivity. Qed.

Lemma bind_lift_ret {A B : Type} (a : A) (k : A -> M B) (w : world) :
  (lift (Ret a) ≫= k) w = k a w.
Proof. reflexivity. Qed.

Lemma bind_lift_raise {A B : Type} (e : exn) (k : A -> M B) (w : world) :
  (lift (Raise e) ≫= k) w = (Raise e, w).
Proof. reflexivity. Qed.

Lemma log_files e w : files (log e w) = files w.
Proof. reflexivity. Qed.

Lemma log_trace e w : trace (log e w) = trace w ++ [e].
Proof. reflexivity. Qed.

Lemma log_after e w : log e w = after w [e].
Proof. reflexivity. Qed.

Lemma after_after w evs evs' : after (after w evs) evs' = after w (evs ++ evs').
Proof. unfold after. simpl. now rewrite <- app_assoc. Qed.

Lemma after_nil w : after w [] = w.
Proof. destruct w. unfold after. simpl. now rewrite app_nil_r. Qed.

Lemma run_print m w : print m w = (Ret tt, after w [EvPrint m]).
Proof. reflexivity. Qed.

Lemma run_ret {A : Type} (a : A) (w : world) : (mret a : M A) w = (Ret a, w).
Proof. reflexivity. Qed.

(* ===================================================================== *)
(** ** The fetcher (lines 38-66) *)
(* ===================================================================== *)

Section Fetcher.

Variable E : Env.

Lemma download_attempts_S url filepath max_retries n attempt w :
  download_attempts E url filepath max_retries (S n) attempt w =
  let w1 := after w [EvPrint (MDownloading (OsPath.basename filepath));
                     EvGet url USER_AGENT 30] in
  match raise_for_status (requests_get E
          (trace w ++ [EvPrint (MDownloading (OsPath.basename filepath))]) url) with
  | Some content =>
      (write_file E filepath content ;;
       print (MDownloaded (OsPath.basename filepath) (String.length content)) ;;
       mret true) w1
  | None =>
      if (attempt <? max_retries - 1)%Z
      then download_attempts E url filepath max_retries n (attempt + 1)
             (after w1 [EvPrint (MAttemptFailed (attempt + 1)); EvSleep 2])
      else (Ret false,
            after w1 [EvPrint (MAttemptFailed (attempt + 1));
                      EvPrint (MGaveUp max_retries)])
  end.
Proof.
  simpl download_attempts. rewrite bind_print, bind_run. unfold http_get.
  cbn [log files trace]. rewrite !log_after, !after_after. simpl app.
  destruct (raise_for_status _); [reflexivity|].
  rewrite bind_print. destruct (attempt <? max_retries - 1)%Z.
  - rewrite bind_sleep. rewrite !log_after, !after_after. reflexivity.
  - rewrite bind_print. rewrite !log_after, !after_after. reflexivity.
Qed.

(** Against a server that fails every request for [url], [n] iterations
    make [n] requests with a wait of 2 between consecutive ones, write
    nothing and end in [False]. *)
Lemma download_attempts_all_fail url filepath max_retries :
  (forall tr, raise_for_status (requests_get E tr url) = None) ->
  forall n attempt w,
    (attempt + Z.of_nat n = max_retries)%Z ->
    exists evs,
      download_attempts E url filepath max_retries n attempt w
      = (Ret false, after w evs)
      /\ net_events evs
         = attempts_with_waits (EvGet url USER_AGENT 30) (EvSleep 2) n
      /\ Forall (fun e => is_write e = false) evs.
Proof.
  intros Hfail. induction n as [|n IH]; intros attempt w Hn.
  - exists []. rewrite after_nil. repeat split. constructor.
  - rewrite download_attempts_S. cbv zeta. rewrite Hfail.
    destruct (attempt <? max_retries - 1)%Z eqn:Hlt.
    + apply Z.ltb_lt in Hlt.
      destruct (IH (attempt + 1)%Z
                  (after (after w [EvPrint (MDownloading (OsPath.basename filepath));
                                   EvGet url USER_AGENT 30])
                         [EvPrint (MAttemptFailed (attempt + 1)); EvSleep 2]))
        as (evs & Hrun & Hnet & Hw); [lia|].
      eexists. rewrite Hrun, !after_after. split; [reflexivity|]. split.
      * simpl. rewrite Hnet.
        destruct n as [|n]; [lia|reflexivity].
      * repeat constructor. exact Hw.
    + apply Z.ltb_ge in Hlt. assert (n = 0) as -> by lia.
      eexists. rewrite !after_after. split; [reflexivity|].
      split; [reflexivity|repeat constructor].
Qed.

Lemma count_gets_attempts url n :
  count_gets (attempts_with_waits (EvGet url USER_AGENT 30) (EvSleep 2) n) = n.
Proof.
  induction n as [|[|n] IH]; try reflexivity.
  change (S (count_gets (attempts_with_waits (EvGet url USER_AGENT 30)
                           (EvSleep 2) (S n))) = S (S n)).
  now rewrite IH.
Qed.

Lemma count_gets_net_events evs : count_gets (net_events evs) = count_gets evs.
Proof.
  unfold count_gets, net_events.
  induction evs as [|[] evs IH]; simpl; auto.
Qed.

Lemma download_image_all_fail url filepath max_retries w :
  (forall tr, raise_for_status (requests_get E tr url) = None) ->
  exists evs,
    download_image E url filepath max_retries w = (Ret false, after w evs)
    /\ net_events evs
       = attempts_with_waits (EvGet url USER_AGENT 30) (EvSleep 2)
           (Z.to_nat max_retries)
    /\ count_gets evs = Z.to_nat max_retries
    /\ Forall (fun e => is_write e = false) evs.
Proof.
  intros Hfail. unfold download_image.
  destruct (Z_le_gt_dec 0 max_retries) as [Hpos|Hneg].
  - destruct (download_attempts_all_fail url filepath max_retries Hfail
                (Z.to_nat max_retries) 0%Z w) as (evs & Hrun & Hnet & Hw); [lia|].
    exists evs. repeat split; try assumption.
    now rewrite <- count_gets_net_events, Hnet, count_gets_attempts.
  - assert (Z.to_nat max_retries = 0) as -> by lia.
    exists []. rewrite after_nil. repeat split. constructor.
Qed.

End Fetcher.

(** The requests that [raise_for_status] turns down are those that raised
    and those answered with a status from 400 to 599. *)
Lemma raise_for_status_none (r : response) :
  raise_for_status r = None <-> request_fails r.
Proof.
  unfold request_fails. destruct r as [status_code content|]; simpl.
  - destruct ((400 <=? status_code)%Z && (status_code <? 600)%Z) eqn:Hs.
    + apply andb_true_iff in Hs. destruct Hs as [H1 H2].
      apply Z.leb_le in H1. apply Z.ltb_lt in H2.
      split; [intros _; right; exists status_code, content; split; [reflexivity|lia]
             |reflexivity].
    + split; [discriminate|].
      intros [Hr | (s' & c' & Hr & Hrange)]; [discriminate|].
      injection Hr as -> ->.
      apply andb_false_iff in Hs.
      destruct Hs as [Hs | Hs]; [apply Z.leb_gt in Hs|apply Z.ltb_ge in Hs]; lia.
  - split; [intros _; now left|reflexivity].
Qed.

(** C3, as stated, fails for the statuses outside 200-299 that are not
    errors for [raise_for_status]: line 49 only raises for 400 to 599.  A
    server that answers every request with 304, a failure in the words of
    the specification, gets a single request; [download_image] writes the
    (empty) body to the destination and returns [True]. *)
Lemma retry_bound_counterexample :
  (forall tr url, SpecWords.failed_attempt (Sample.server_304 tr url) = true)
  /\ download_image (Sample.env None Sample.server_304 Sample.good_disk)
       "https://x.com/a.png" "nft_images/A.png" 3 Sample.empty_world
     = (Ret true,
        mkWorld {["nft_images/A.png" := ""]}
          [EvPrint (MDownloading "A.png"); EvGet "https://x.com/a.png" USER_AGENT 30;
           EvWrite "nft_images/A.png"; EvPrint (MDownloaded "A.png" 0)]).
Proof. split; [intros tr url; reflexivity|vm_compute; reflexivity]. Qed.

(** C3 (amended): for a URL every request for which raises a request
    exception or is answered with a status from 400 to 599 (the requests for
    which [raise_for_status] gives [None], see [raise_for_status_none]),
    [download_image] makes exactly [max_retries] GET requests (3 when called
    by the driver), waits 2 between consecutive requests and at no other
    time, returns [False], and leaves the files as they were: nothing is
    written, so no file appears at the destination. *)
Theorem retry_bound (E : Env) (url filepath : string) (max_retries : Z) (w : world) :
  (0 <= max_retries)%Z ->
  (forall tr, raise_for_status (requests_get E tr url) = None) ->
  exists evs,
    download_image E url filepath max_retries w
    = (Ret false, mkWorld (files w) (trace w ++ evs))
    /\ Z.of_nat (count_gets evs) = max_retries
    /\ net_events evs
       = attempts_with_waits (EvGet url USER_AGENT 30) (EvSleep 2) (Z.to_nat max_retries)
    /\ Forall (fun e => is_write e = false) evs.
Proof.
  intros Hpos Hfail.
  destruct (download_image_all_fail E url filepath max_retries w Hfail)
    as (evs & Hrun & Hnet & Hcount & Hw).
  exists evs. repeat split; try assumption. lia.
Qed.

Lemma retry_bound_witness :
  exists evs,
    download_image (Sample.env None Sample.server_404 Sample.good_disk)
      "https://x.com/a.png" "nft_images/A.png" 3 Sample.empty_world
    = (Ret false, mkWorld ∅ ([] ++ evs))
    /\ Z.of_nat (count_gets evs) = 3%Z
    /\ net_events evs
       = attempts_with_waits (EvGet "https://x.com/a.png" USER_AGENT 30) (EvSleep 2) 3
    /\ Forall (fun e => is_write e = false) evs.
Proof.
  apply (retry_bound (Sample.env None Sample.server_404 Sample.good_disk)
           "https://x.com/a.png" "nft_images/A.png" 3 Sample.empty_world).
  - lia.
  - intros tr. reflexivity.
Defined.

(* ===================================================================== *)
(** ** The driver (lines 68-148) *)
(* ===================================================================== *)

Section Driver.

Variable E : Env.

(** One iteration of the loop, case by case. *)
Lemma process_item_eq total i item c w :
  process_item E total i item c w =
  match entry_fields item with
  | Raise e => (Raise e, w)
  | Ret (mint_address, image_url, nft_name) =>
      let w1 := after w [EvPrint (MProcessing i total nft_name);
                         EvPrint (MMint mint_address)] in
      if negb (Py.truthy mint_address) || negb (Py.truthy image_url)
      then (Ret (count_skipped c), after w1 [EvPrint MSkipMissing])
      else
        match image_url with
        | JStr url =>
            match get_file_extension_from_url E url with
            | Raise e => (Raise e, w1)
            | Ret file_ext =>
                let filename := py_str E mint_address +:+ file_ext in
                let filepath := OsPath.join download_dir filename in
                match files w !! filepath with
                | Some content =>
                    (Ret (count_successful c),
                     after w1 [EvPrint (MAlreadyExists filename (String.length content))])
                | None =>
                    match download_image E url filepath 3 w1 with
                    | (Ret ok, w2) =>
                        (Ret (if ok then count_successful c else count_failed c),
                         after w2 [EvSleep (1 # 2)])
                    | (Raise e, w2) => (Raise e, w2)
                    end
                end
            end
        | _ => (Raise AttributeError, w1)
        end
  end.
Proof.
  unfold process_item. rewrite bind_run. unfold lift at 1.
  destruct (entry_fields item) as [[[mint_address image_url] nft_name]|e];
    [|reflexivity].
  rewrite !bind_print, !log_after, !after_after. simpl app. cbv zeta.
  destruct (negb (Py.truthy mint_address) || negb (Py.truthy image_url)).
  { rewrite bind_print, log_after, !after_after. reflexivity. }
  destruct image_url; try reflexivity.
  rewrite bind_run. unfold lift at 1.
  destruct (get_file_extension_from_url E s) as [file_ext|e]; [|reflexivity].
  rewrite bind_run. unfold path_exists at 1. cbn [files after].
  destruct (files w !! OsPath.join download_dir (py_str E mint_address +:+ file_ext))
    as [content|] eqn:Hfile.
  - rewrite bind_run. unfold getsize at 1. cbn [files after]. rewrite Hfile.
    rewrite bind_print, log_after, !after_after. reflexivity.
  - rewrite bind_run.
    destruct (download_image E s _ 3 _) as [[ok|e] w2]; [|reflexivity].
    rewrite bind_sleep, log_after. reflexivity.
Qed.

Lemma process_items_cons total i item rest c w :
  process_items E total i (item :: rest) c w =
  match process_item E total i item c w with
  | (Ret c', w') => process_items E total (S i) rest c' w'
  | (Raise e, w') => (Raise e, w')
  end.
Proof. reflexivity. Qed.

(** [main] up to the final summary, case by case. *)
Lemma main_loop_eq w :
  main_loop E w =
  let w0 := after w [EvPrint MStart; EvPrint MRule; EvMkdir download_dir] in
  if mkdir_fault E download_dir then (Raise OSError, w0)
  else
    let w1 := after w0 [EvPrint (MDownloadDir download_dir);
                        EvPrint (MLoading json_file); EvLoad json_file] in
    match json_load E json_file with
    | None => (Ret None, after w1 [EvPrint (MLoadError json_file)])
    | Some data =>
        if negb (Py.truthy data) then (Ret None, w1)
        else
          match Py.get data "result" (JObj []) with
          | Raise e => (Raise e, w1)
          | Ret result =>
              match Py.get result "items" (JArr []) with
              | Raise e => (Raise e, w1)
              | Ret items =>
                  match Py.len items with
                  | Raise e => (Raise e, w1)
                  | Ret total_count =>
                      let w2 := after w1 [EvPrint (MFound total_count); EvPrint MRule] in
                      match Py.iter items with
                      | Raise e => (Raise e, w2)
                      | Ret elements =>
                          match process_items E total_count 1 elements
                                  (mkCounters 0 0 0) w2 with
                          | (Ret c, w3) => (Ret (Some (c, total_count)), w3)
                          | (Raise e, w3) => (Raise e, w3)
                          end
                      end
                  end
              end
          end
    end.
Proof.
  unfold main_loop. rewrite !bind_print, bind_run. unfold mkdir at 1.
  rewrite !log_after, !after_after. simpl app. cbv zeta.
  destruct (mkdir_fault E download_dir); [reflexivity|].
  rewrite !bind_print, bind_run. unfold load_collection_data at 1.
  rewrite bind_emit, !log_after, !after_after. simpl app.
  destruct (json_load E json_file) as [data|].
  2:{ rewrite bind_print, log_after, ?after_after. simpl.
      rewrite ?after_after. reflexivity. }
  cbn [mret M_ret]. destruct (negb (Py.truthy data)); [reflexivity|].
  rewrite bind_run. unfold lift at 1.
  destruct (Py.get data "result" (JObj [])) as [result|e]; [|reflexivity].
  rewrite bind_run. unfold lift at 1.
  destruct (Py.get result "items" (JArr [])) as [items|e]; [|reflexivity].
  rewrite bind_run. unfold lift at 1.
  destruct (Py.len items) as [total_count|e]; [|reflexivity].
  rewrite !bind_print, !log_after, !after_after. simpl app.
  rewrite bind_run. unfold lift at 1.
  destruct (Py.iter items) as [elements|e]; [|reflexivity].
  rewrite bind_run.
  destruct (process_items E total_count 1 elements _ _) as [[c|e] w3]; reflexivity.
Qed.

Lemma final_summary_eq c total w :
  final_summary E c total w = (Ret tt, after w (summary_events E c total)).
Proof.
  unfold final_summary, summary_events.
  rewrite !bind_print, !log_after, !after_after. simpl app.
  rewrite bind_run.
  destruct (0 <? successful_downloads c)%nat;
    destruct (0 <? failed_downloads c)%nat;
    rewrite ?run_print, ?run_ret; cbv iota;
    rewrite ?run_print, ?run_ret, ?after_after; reflexivity.
Qed.

Lemma main_eq w :
  main E w =
  match main_loop E w with
  | (Ret (Some (c, total)), w') => (Ret tt, after w' (summary_events E c total))
  | (Ret None, w') => (Ret tt, w')
  | (Raise e, w') => (Raise e, w')
  end.
Proof.
  unfold main. rewrite bind_run.
  destruct (main_loop E w) as [[[[c total]|]|e] w']; try reflexivity.
  apply final_summary_eq.
Qed.

End Driver.

(* ===================================================================== *)
(** ** What a run leaves behind *)
(* ===================================================================== *)

Lemma extends_after w evs : extends w (after w evs) evs.
Proof. split; [reflexivity|]. intros p Hp. exact Hp. Qed.

Lemma extends_trans w1 w2 w3 evs evs' :
  extends w1 w2 evs -> extends w2 w3 evs' -> extends w1 w3 (evs ++ evs').
Proof.
  intros [Ht1 Hf1] [Ht2 Hf2]. split.
  - rewrite Ht2, Ht1. now rewrite <- app_assoc.
  - intros p Hp. apply Hf2, Hf1, Hp.
Qed.

Lemma waits_are_app d evs evs' :
  waits_are d evs -> waits_are d evs' -> waits_are d (evs ++ evs').
Proof.
  intros H1 H2 q Hq. apply in_app_or in Hq. destruct Hq; [apply H1|apply H2]; assumption.
Qed.

Lemma waits_are_quiet d evs :
  forallb (fun e => negb (is_sleep e)) evs = true -> waits_are d evs.
Proof.
  intros H q Hq. rewrite forallb_forall in H. apply H in Hq. discriminate.
Qed.

Section Invariants.

Variable E : Env.

Lemma write_file_inv filepath content w r w' :
  write_file E filepath content w = (r, w') ->
  extends w w' [EvWrite filepath]
  /\ (r = Ret tt -> files w' !! filepath = Some content).
Proof.
  unfold write_file.
  destruct (write_fault E w filepath content); intros [= <- <-]; cbn [files trace log].
  - split; [split; [reflexivity|]|intros _; apply lookup_insert_eq].
    intros p Hp. cbn [files]. rewrite lookup_insert. case_decide; eauto.
  - split; [apply (extends_after w [EvWrite filepath])|discriminate].
  - split; [split; [reflexivity|]|discriminate].
    intros p Hp. cbn [files]. rewrite lookup_insert. case_decide; eauto.
Qed.

(** Whatever the server and the disk do, [download_image] only adds to the
    log and to the files, waits 2 whenever it waits, asks the server at
    least once when it has an attempt, and returns [True] only after it
    has written the file. *)
Lemma download_attempts_inv url filepath max_retries n :
  forall attempt w r w',
    download_attempts E url filepath max_retries n attempt w = (r, w') ->
    exists evs,
      extends w w' evs
      /\ waits_are 2 evs
      /\ (0 < n -> existsb is_get evs = true)
      /\ (r = Ret true -> is_Some (files w' !! filepath)).
Proof.
  induction n as [|n IH]; intros attempt w r w' Hrun.
  - injection Hrun as <- <-. exists []. split; [|split; [|split]].
    + rewrite <- (after_nil w) at 2. apply extends_after.
    + intros q [].
    + lia.
    + discriminate.
  - rewrite download_attempts_S in Hrun. cbv zeta in Hrun.
    set (w1 := after w [EvPrint (MDownloading (OsPath.basename filepath));
                        EvGet url USER_AGENT 30]) in *.
    assert (H1 : extends w w1 [EvPrint (MDownloading (OsPath.basename filepath));
                               EvGet url USER_AGENT 30]) by apply extends_after.
    destruct (raise_for_status _) as [content|].
    + rewrite bind_run in Hrun.
      destruct (write_file E filepath content w1) as [[[]|e] w2] eqn:Hw;
        destruct (write_file_inv _ _ _ _ _ Hw) as [H2 Hfile].
      * rewrite bind_print in Hrun. injection Hrun as <- <-.
        eexists. split; [|split; [|split]].
        -- eapply extends_trans; [exact H1|].
           eapply extends_trans; [exact H2|]. apply extends_after.
        -- apply waits_are_quiet. reflexivity.
        -- reflexivity.
        -- intros _. rewrite log_files. rewrite Hfile; eauto.
      * injection Hrun as <- <-. eexists. split; [|split; [|split]].
        -- eapply extends_trans; [exact H1|exact H2].
        -- apply waits_are_quiet. reflexivity.
        -- reflexivity.
        -- discriminate.
    + destruct (attempt <? max_retries - 1)%Z.
      * apply IH in Hrun. destruct Hrun as (evs & Hext & Hwait & _ & Hfile).
        eexists. split; [|split; [|split]].
        -- eapply extends_trans; [exact H1|].
           eapply extends_trans; [apply extends_after|exact Hext].
        -- apply (waits_are_app 2 [_; _; _; _]); [|exact Hwait].
           intros q [Hq|[Hq|[Hq|[Hq|[]]]]]; try discriminate.
           now injection Hq as <-.
        -- reflexivity.
        -- exact Hfile.
      * injection Hrun as <- <-. eexists. split; [|split; [|split]].
        -- eapply extends_trans; [exact H1|apply extends_after].
        -- apply waits_are_quiet. reflexivity.
        -- reflexivity.
        -- discriminate.
Qed.

(** The three ways one iteration of the loop can end without an
    exception: the entry is skipped, its file is already there, or a
    download was attempted. *)
Lemma process_item_cases total i item c w c' w' :
  process_item E total i item c w = (Ret c', w') ->
  exists mint_address image_url nft_name,
    entry_fields item = Ret (mint_address, image_url, nft_name)
    /\ let w1 := after w [EvPrint (MProcessing i total nft_name);
                          EvPrint (MMint mint_address)] in
       ((negb (Py.truthy mint_address) || negb (Py.truthy image_url) = true
         /\ c' = count_skipped c
         /\ w' = after w1 [EvPrint MSkipMissing])
        \/ (negb (Py.truthy mint_address) || negb (Py.truthy image_url) = false
            /\ exists url file_ext,
                image_url = JStr url
                /\ get_file_extension_from_url E url = Ret file_ext
                /\ let filename := py_str E mint_address +:+ file_ext in
                   let filepath := OsPath.join download_dir filename in
                   ((exists content,
                        files w !! filepath = Some content
                        /\ c' = count_successful c
                        /\ w' = after w1 [EvPrint (MAlreadyExists filename
                                                     (String.length content))])
                    \/ (exists ok w2,
                           files w !! filepath = None
                           /\ download_image E url filepath 3 w1 = (Ret ok, w2)
                           /\ c' = (if ok : bool then count_successful c
                                    else count_failed c)
                           /\ w' = after w2 [EvSleep (1 # 2)])))).
Proof.
  rewrite process_item_eq.
  destruct (entry_fields item) as [[[mint_address image_url] nft_name]|e];
    [|discriminate].
  intros Hrun. exists mint_address, image_url, nft_name. split; [reflexivity|].
  cbv zeta in *.
  destruct (negb (Py.truthy mint_address) || negb (Py.truthy image_url)).
  { injection Hrun as <- <-. left. repeat split. }
  right. split; [reflexivity|].
  destruct image_url as [| | | |url| |]; try discriminate.
  destruct (get_file_extension_from_url E url) as [file_ext|e] eqn:Hext;
    [|discriminate].
  exists url, file_ext. split; [reflexivity|]. split; [exact Hext|].
  destruct (files w !! _) as [content|] eqn:Hfile.
  - injection Hrun as <- <-. left. exists content. repeat split.
  - destruct (download_image E url _ 3 _) as [[ok|e] w2] eqn:Hdl; [|discriminate].
    injection Hrun as <- <-. right. exists ok, w2. repeat split.
Qed.

(** An iteration only adds to the log and to the files. *)
Lemma process_item_extends total i item c w c' w' :
  process_item E total i item c w = (Ret c', w') ->
  exists evs, extends w w' evs.
Proof.
  intros Hrun. apply process_item_cases in Hrun.
  destruct Hrun as (m & u & nm & _ & Hcases). cbv zeta in Hcases.
  destruct Hcases as [(_ & _ & ->)|(_ & url & ext & _ & _ & Hcases)].
  - rewrite after_after. eexists. apply extends_after.
  - destruct Hcases as [(content & _ & _ & ->)|(ok & w2 & _ & Hdl & _ & ->)].
    + rewrite after_after. eexists. apply extends_after.
    + apply download_attempts_inv in Hdl. destruct Hdl as (evs & Hext & _).
      eexists. eapply extends_trans; [apply extends_after|].
      eapply extends_trans; [exact Hext|apply extends_after].
Qed.

Lemma process_items_extends total items :
  forall i c w c' w',
    process_items E total i items c w = (Ret c', w') ->
    exists evs, extends w w' evs.
Proof.
  induction items as [|item rest IH]; intros i c w c' w' Hrun.
  - injection Hrun as <- <-. exists []. rewrite <- (after_nil w) at 2.
    apply extends_after.
  - rewrite process_items_cons in Hrun.
    destruct (process_item E total i item c w) as [[c1|e] w1] eqn:H1; [|discriminate].
    apply process_item_extends in H1. apply IH in Hrun.
    destruct H1 as [evs1 H1]. destruct Hrun as [evs2 H2].
    eexists. eapply extends_trans; eassumption.
Qed.

End Invariants.

(* ===================================================================== *)
(** ** Counting (lines 96-141) *)
(* ===================================================================== *)

Section Counting.

Variable E : Env.

Lemma process_item_counts total i item c w c' w' :
  process_item E total i item c w = (Ret c', w') ->
  c' = count_successful c \/ c' = count_failed c \/ c' = count_skipped c.
Proof.
  intros Hrun. apply process_item_cases in Hrun.
  destruct Hrun as (m & u & nm & _ & Hcases). cbv zeta in Hcases.
  destruct Hcases as [(_ & -> & _)|(_ & url & ext & _ & _ & Hcases)]; [tauto|].
  destruct Hcases as [(content & _ & -> & _)|(ok & w2 & _ & _ & -> & _)]; [tauto|].
  destruct ok; tauto.
Qed.

Lemma process_items_counts total items :
  forall i c w c' w',
    process_items E total i items c w = (Ret c', w') ->
    counted c' = counted c + List.length items
    /\ failed_downloads c <= failed_downloads c'.
Proof.
  induction items as [|item rest IH]; intros i c w c' w' Hrun.
  - injection Hrun as <- <-. simpl. lia.
  - rewrite process_items_cons in Hrun.
    destruct (process_item E total i item c w) as [[c1|e] w1] eqn:H1; [|discriminate].
    apply process_item_counts in H1. apply IH in Hrun.
    unfold counted in *.
    destruct H1 as [-> | [-> | ->]]; simpl in *; lia.
Qed.

Lemma len_iter items total elements :
  Py.len items = Ret total -> Py.iter items = Ret elements ->
  total = List.length elements.
Proof.
  destruct items; simpl; try discriminate; intros [= <-] [= <-].
  - induction s as [|ch s IH]; simpl; congruence.
  - reflexivity.
  - now rewrite length_map.
Qed.

(** What [main_loop] has done when it returns the counters. *)
Lemma main_loop_some w c total w' :
  main_loop E w = (Ret (Some (c, total)), w') ->
  exists data result items elements,
    mkdir_fault E download_dir = false
    /\ json_load E json_file = Some data
    /\ Py.truthy data = true
    /\ Py.get data "result" (JObj []) = Ret result
    /\ Py.get result "items" (JArr []) = Ret items
    /\ Py.len items = Ret total
    /\ Py.iter items = Ret elements
    /\ process_items E total 1 elements (mkCounters 0 0 0)
         (after w (prelude_events ++ [EvPrint (MFound total); EvPrint MRule]))
       = (Ret c, w').
Proof.
  rewrite main_loop_eq. cbv zeta.
  destruct (mkdir_fault E download_dir) eqn:Hmk; [discriminate|].
  destruct (json_load E json_file) as [data|] eqn:Hload; [|discriminate].
  destruct (Py.truthy data) eqn:Htrue; [|discriminate]. simpl negb. cbv iota.
  destruct (Py.get data "result" (JObj [])) as [result|] eqn:Hres; [|discriminate].
  destruct (Py.get result "items" (JArr [])) as [items|] eqn:Hitems; [|discriminate].
  destruct (Py.len items) as [total'|] eqn:Hlen; [|discriminate].
  destruct (Py.iter items) as [elements|] eqn:Hiter; [|discriminate].
  rewrite !after_after. simpl app.
  destruct (process_items E total' 1 elements _ _) as [[c1|e] w3] eqn:Hloop;
    [|discriminate].
  intros [= <- <- <-]. exists data, result, items, elements.
  repeat split; assumption.
Qed.

(** The converse: with a usable manifest, [main_loop] is the loop over
    its entries. *)
Lemma main_loop_run w data result items total elements :
  mkdir_fault E download_dir = false ->
  json_load E json_file = Some data ->
  Py.truthy data = true ->
  Py.get data "result" (JObj []) = Ret result ->
  Py.get result "items" (JArr []) = Ret items ->
  Py.len items = Ret total ->
  Py.iter items = Ret elements ->
  main_loop E w =
  match process_items E total 1 elements (mkCounters 0 0 0)
          (after w (prelude_events ++ [EvPrint (MFound total); EvPrint MRule])) with
  | (Ret c, w3) => (Ret (Some (c, total)), w3)
  | (Raise e, w3) => (Raise e, w3)
  end.
Proof.
  intros Hmk Hload Htrue Hres Hitems Hlen Hiter.
  rewrite main_loop_eq. cbv zeta. rewrite Hmk, Hload, Htrue. simpl negb. cbv iota.
  rewrite Hres, Hitems, Hlen, Hiter, !after_after. reflexivity.
Qed.

End Counting.

(* ===================================================================== *)
(** ** Runs that reach the summary *)
(* ===================================================================== *)

Section Completion.

Variable E : Env.
Hypothesis disk_ok : reliable_disk E.

(** With a reliable disk [download_image] returns, whatever the server
    answers. *)
Lemma download_attempts_returns url filepath max_retries n :
  forall attempt w,
    exists ok w', download_attempts E url filepath max_retries n attempt w
                  = (Ret ok, w').
Proof.
  induction n as [|n IH]; intros attempt w.
  - eexists _, _. reflexivity.
  - rewrite download_attempts_S. cbv zeta.
    destruct (raise_for_status _) as [content|].
    + rewrite bind_run. unfold write_file at 1. rewrite disk_ok.
      eexists _, _. reflexivity.
    + destruct (attempt <? max_retries - 1)%Z; [apply IH|].
      eexists _, _. reflexivity.
Qed.

Lemma process_item_returns total i item c w :
  usable E item -> exists c' w', process_item E total i item c w = (Ret c', w').
Proof.
  intros (m & u & nm & Hfields & Hcase). rewrite process_item_eq, Hfields. cbv zeta.
  destruct Hcase as [-> | (url & parsed & -> & Hparsed)]; [eexists _, _; reflexivity|].
  destruct (negb (Py.truthy m) || negb (Py.truthy (JStr url)));
    [eexists _, _; reflexivity|].
  destruct (ext_returns E url parsed Hparsed) as (ext & -> & _).
  destruct (files w !! _); [eexists _, _; reflexivity|].
  destruct (download_attempts_returns url
              (OsPath.join download_dir (py_str E m +:+ ext)) 3 (Z.to_nat 3) 0%Z
              (after w [EvPrint (MProcessing i total nm); EvPrint (MMint m)]))
    as (ok & w2 & Hdl).
  unfold download_image. rewrite Hdl. eexists _, _. reflexivity.
Qed.

Lemma process_items_returns total items :
  Forall (usable E) items ->
  forall i c w, exists c' w', process_items E total i items c w = (Ret c', w').
Proof.
  induction 1 as [|item rest Hitem _ IH]; intros i c w.
  - eexists _, _. reflexivity.
  - rewrite process_items_cons.
    destruct (process_item_returns total i item c w Hitem) as (c1 & w1 & ->).
    apply IH.
Qed.

(** A manifest of the documented shape, all of whose entries are usable, is
    processed to the end on a reliable disk: the run reaches the summary
    with a total that is the number of entries. *)
Lemma main_loop_returns w kvs result items :
  mkdir_fault E download_dir = false ->
  json_load E json_file = Some (JObj kvs) ->
  Py.assoc "result" kvs = Some (JObj result) ->
  Py.assoc "items" result = Some (JArr items) ->
  Forall (usable E) items ->
  exists c w', main_loop E w = (Ret (Some (c, List.length items)), w').
Proof.
  intros Hmk Hload Hres Hitems Husable.
  rewrite (main_loop_run E w (JObj kvs) (JObj result) (JArr items)
             (List.length items) items); try assumption; try reflexivity.
  - destruct (process_items_returns (List.length items) items Husable 1
                (mkCounters 0 0 0)
                (after w (prelude_events
                          ++ [EvPrint (MFound (List.length items)); EvPrint MRule])))
      as (c & w' & ->).
    eexists _, _. reflexivity.
  - destruct kvs; [discriminate|reflexivity].
  - simpl. now rewrite Hres.
  - simpl. now rewrite Hitems.
Qed.

End Completion.

(** A write that the disk refuses ends [download_image] with [OSError]:
    only a [RequestException] is caught at line 58. *)
Lemma download_attempts_write_fault (E : Env) url filepath max_retries n attempt w content :
  raise_for_status (requests_get E
      (trace w ++ [EvPrint (MDownloading (OsPath.basename filepath))]) url)
  = Some content ->
  write_fault E (after w [EvPrint (MDownloading (OsPath.basename filepath));
                          EvGet url USER_AGENT 30]) filepath content <> NoFault ->
  fst (download_attempts E url filepath max_retries (S n) attempt w) = Raise OSError.
Proof.
  intros Hresp Hfault. rewrite download_attempts_S. cbv zeta. rewrite Hresp.
  rewrite bind_run. unfold write_file at 1.
  destruct (write_fault E _ filepath content); [congruence|reflexivity|reflexivity].
Qed.

(** C1: whenever the driver has processed all entries and reaches the final
    summary, the counters it prints satisfy
    successful + failed + skipped = total, where total is the number of
    entries of the manifest's [result.items]; and every entry that is
    processed moves exactly one of the three counters, by one. *)
Theorem counts_reconcile (E : Env) (w w' : world) (c : counters) (total : nat) :
  main_loop E w = (Ret (Some (c, total)), w') ->
  successful_downloads c + failed_downloads c + skipped_downloads c = total
  /\ (exists data result items elements,
         json_load E json_file = Some data
         /\ Py.get data "result" (JObj []) = Ret result
         /\ Py.get result "items" (JArr []) = Ret items
         /\ Py.iter items = Ret elements
         /\ total = List.length elements)
  /\ main E w = (Ret tt, after w' (summary_events E c total))
  /\ (forall t i item c0 w0 c1 w1,
         process_item E t i item c0 w0 = (Ret c1, w1) ->
         c1 = count_successful c0 \/ c1 = count_failed c0 \/ c1 = count_skipped c0).
Proof.
  intros Hrun. pose proof (main_loop_some E w c total w' Hrun)
    as (data & result & items & elements & _ & Hload & _ & Hres & Hitems & Hlen & Hiter & Hloop).
  pose proof (len_iter _ _ _ Hlen Hiter) as Htotal.
  split; [|split; [|split]].
  - apply process_items_counts in Hloop. unfold counted in Hloop. simpl in Hloop. lia.
  - exists data, result, items, elements. tauto.
  - rewrite main_eq, Hrun. reflexivity.
  - intros t i item c0 w0 c1 w1. apply process_item_counts.
Qed.

Lemma counts_reconcile_witness :
  fst (main_loop Scenario.env Sample.empty_world) = Ret (Some (mkCounters 2 0 1, 3))
  /\ 2 + 0 + 1 = 3.
Proof.
  split; [vm_compute; reflexivity|].
  refine (proj1 (counts_reconcile Scenario.env Sample.empty_world
                   (snd (main_loop Scenario.env Sample.empty_world))
                   (mkCounters 2 0 1) 3 _)).
  vm_compute. reflexivity.
Defined.

(* ===================================================================== *)
(** ** Entries whose file is already there (lines 119-124) *)
(* ===================================================================== *)

(** C4, as stated, fails for the fetcher: [download_image] does not look at
    the destination.  Called for a path that holds a file, it asks the
    server and overwrites the file. *)
Lemma fetcher_precheck_counterexample :
  let w := mkWorld {["nft_images/A.png" := "OLD"]} [] in
  let run := download_image (Sample.env None Sample.server_ok Sample.good_disk)
               "https://x.com/a.png" "nft_images/A.png" 3 w in
  files w !! "nft_images/A.png" = Some "OLD"
  /\ fst run = Ret true
  /\ trace (snd run)
     = [EvPrint (MDownloading "A.png"); EvGet "https://x.com/a.png" USER_AGENT 30;
        EvWrite "nft_images/A.png"; EvPrint (MDownloaded "A.png" 5)]
  /\ files (snd run) !! "nft_images/A.png" = Some "IMAGE".
Proof. repeat split; vm_compute; reflexivity. Qed.

(** C4 (amended): the check for an existing file is made by the driver, not
    by [download_image].  For an entry with an identifier and a URL whose
    destination path holds a file, the driver reports the name and the size
    of that file, counts the entry as successful and goes on to the next
    entry: [download_image] is not called, so there is no network call, no
    write and no wait. *)
Theorem existing_file_is_success_without_fetch
        (E : Env) (total i : nat) (item : json) (c : counters) (w : world)
        (mint_address nft_name : json) (url file_ext content : string) :
  entry_fields item = Ret (mint_address, JStr url, nft_name) ->
  Py.truthy mint_address = true ->
  url <> EmptyString ->
  get_file_extension_from_url E url = Ret file_ext ->
  files w !! OsPath.join download_dir (py_str E mint_address +:+ file_ext)
  = Some content ->
  process_item E total i item c w
  = (Ret (mkCounters (S (successful_downloads c)) (failed_downloads c)
                     (skipped_downloads c)),
     mkWorld (files w)
       (trace w ++ [EvPrint (MProcessing i total nft_name);
                    EvPrint (MMint mint_address);
                    EvPrint (MAlreadyExists (py_str E mint_address +:+ file_ext)
                                            (String.length content))])).
Proof.
  intros Hfields Hmint Hurl Hext Hfile.
  rewrite process_item_eq, Hfields. cbv zeta. rewrite Hmint.
  assert (Py.truthy (JStr url) = true) as ->.
  { simpl. destruct (String.eqb_spec url ""); [contradiction|reflexivity]. }
  simpl negb. simpl orb. cbv iota. rewrite Hext, Hfile, after_after. reflexivity.
Qed.

Lemma existing_file_is_success_without_fetch_witness :
  process_item (Sample.env None Sample.server_ok Sample.good_disk) 1 1
    (Sample.entry "A" "https://x.com/a.png" "Ape") (mkCounters 0 0 0)
    (mkWorld {["nft_images/A.png" := "OLD"]} [])
  = (Ret (mkCounters 1 0 0),
     mkWorld {["nft_images/A.png" := "OLD"]}
       [EvPrint (MProcessing 1 1 (JStr "Ape")); EvPrint (MMint (JStr "A"));
        EvPrint (MAlreadyExists "A.png" 3)]).
Proof.
  pose proof (existing_file_is_success_without_fetch
           (Sample.env None Sample.server_ok Sample.good_disk) 1 1
           (Sample.entry "A" "https://x.com/a.png" "Ape") (mkCounters 0 0 0)
           (mkWorld {["nft_images/A.png" := "OLD"]} [])
           (JStr "A") (JStr "Ape") "https://x.com/a.png" ".png" "OLD") as H.
  vm_compute in H. vm_compute. apply H; reflexivity || discriminate.
Defined.

(* ===================================================================== *)
(** ** Manifests without [result.items] (lines 83-93) *)
(* ===================================================================== *)

(** C5, as stated, fails on two kinds of manifest in which the path
    [result.items] is absent.  The empty object is false for line 85, so
    [main] returns there without a summary; and a [result] that is not an
    object has no [get], so line 89 raises [AttributeError]. *)
Lemma absent_items_counterexample :
  (SpecWords.json_path ["result"; "items"] (JObj []) = None
   /\ main (Sample.env (Some (JObj [])) Sample.server_ok Sample.good_disk)
           Sample.empty_world
      = (Ret tt, mkWorld ∅ prelude_events))
  /\ (SpecWords.json_path ["result"; "items"] (JObj [("result", JInt 5)]) = None
      /\ main (Sample.env (Some (JObj [("result", JInt 5)])) Sample.server_ok
                 Sample.good_disk) Sample.empty_world
         = (Raise AttributeError, mkWorld ∅ prelude_events)).
Proof. repeat split; vm_compute; reflexivity. Qed.

(** C5 (amended): for every manifest that parses to a non-empty object in
    which the path [result.items] is absent, and whose [result], when it is
    there, is an object, the entry sequence is empty and the run completes
    normally: no entry is processed and the summary shows a total of 0. *)
Theorem absent_items_is_empty_run (E : Env) (w : world) (kvs : list (string * json)) :
  mkdir_fault E download_dir = false ->
  json_load E json_file = Some (JObj kvs) ->
  kvs <> [] ->
  SpecWords.json_path ["result"; "items"] (JObj kvs) = None ->
  (forall v, Py.assoc "result" kvs = Some v -> exists r, v = JObj r) ->
  main_loop E w
  = (Ret (Some (mkCounters 0 0 0, 0)),
     after w (prelude_events ++ [EvPrint (MFound 0); EvPrint MRule]))
  /\ main E w
     = (Ret tt,
        mkWorld (files w)
          (trace w ++ prelude_events
           ++ [EvPrint (MFound 0); EvPrint MRule; EvPrint MRule;
               EvPrint MSummaryTitle; EvPrint (MSuccessful 0); EvPrint (MFailed 0);
               EvPrint (MSkipped 0); EvPrint (MTotal 0);
               EvPrint (MLocation (abspath E download_dir))])).
Proof.
  intros Hmk Hload Hne Habsent Hobj.
  assert (Hloop : main_loop E w
    = (Ret (Some (mkCounters 0 0 0, 0)),
       after w (prelude_events ++ [EvPrint (MFound 0); EvPrint MRule]))).
  { rewrite main_loop_eq. cbv zeta. rewrite Hmk, Hload.
    assert (Py.truthy (JObj kvs) = true) as -> by (destruct kvs; [contradiction|reflexivity]).
    simpl negb. cbv iota. simpl Py.get. simpl in Habsent.
    destruct (Py.assoc "result" kvs) as [v|] eqn:Hres.
    - destruct (Hobj v eq_refl) as [r ->]. simpl Py.get.
      destruct (Py.assoc "items" r); [discriminate|].
      simpl. rewrite !after_after. reflexivity.
    - simpl. rewrite !after_after. reflexivity. }
  split; [exact Hloop|].
  rewrite main_eq, Hloop, after_after. reflexivity.
Qed.

Lemma absent_items_is_empty_run_witness :
  main (Sample.env (Some (JObj [("result", JObj [("total", JInt 0)])]))
          Sample.server_ok Sample.good_disk) Sample.empty_world
  = (Ret tt,
     mkWorld ∅
       (prelude_events
        ++ [EvPrint (MFound 0); EvPrint MRule; EvPrint MRule;
            EvPrint MSummaryTitle; EvPrint (MSuccessful 0); EvPrint (MFailed 0);
            EvPrint (MSkipped 0); EvPrint (MTotal 0);
            EvPrint (MLocation "/srv/app/nft_images")])).
Proof.
  refine (proj2 (absent_items_is_empty_run
           (Sample.env (Some (JObj [("result", JObj [("total", JInt 0)])]))
              Sample.server_ok Sample.good_disk)
           Sample.empty_world [("result", JObj [("total", JInt 0)])] _ _ _ _ _)).
  - reflexivity.
  - reflexivity.
  - discriminate.
  - reflexivity.
  - intros v Hv. vm_compute in Hv. injection Hv as <-. eexists. reflexivity.
Defined.

(* ===================================================================== *)
(** ** Manifests that are not objects (lines 85-89) *)
(* ===================================================================== *)

(** C10: when the manifest parses to a true value that is not a dict, the
    run ends at line 89 with an uncaught [AttributeError]: the log holds the
    events up to the loading of the manifest and nothing else, so neither a
    load error nor a summary is printed.  [get] at line 89 only returns for
    a dict. *)
Theorem non_dict_manifest_raises (E : Env) (w : world) (data : json) :
  mkdir_fault E download_dir = false ->
  json_load E json_file = Some data ->
  Py.truthy data = true ->
  (forall kvs, data <> JObj kvs) ->
  main E w = (Raise AttributeError, mkWorld (files w) (trace w ++ prelude_events))
  /\ ~ In (EvPrint (MLoadError json_file)) prelude_events
  /\ (forall n, ~ In (EvPrint (MTotal n)) prelude_events)
  /\ (forall d result, Py.get d "result" (JObj []) = Ret result -> exists kvs, d = JObj kvs).
Proof.
  intros Hmk Hload Htrue Hshape. split; [|split; [|split]].
  - rewrite main_eq, main_loop_eq. cbv zeta. rewrite Hmk, Hload, Htrue.
    simpl negb. cbv iota.
    destruct data; try (rewrite !after_after; reflexivity).
    exfalso. now apply (Hshape kvs).
  - unfold prelude_events. simpl. intuition discriminate.
  - intros n. unfold prelude_events. simpl. intuition discriminate.
  - intros d result. destruct d; simpl; try discriminate. eauto.
Qed.

Lemma non_dict_manifest_raises_witness :
  main (Sample.env (Some (JArr [JInt 1])) Sample.server_ok Sample.good_disk)
       Sample.empty_world
  = (Raise AttributeError, mkWorld ∅ prelude_events).
Proof.
  refine (proj1 (non_dict_manifest_raises
           (Sample.env (Some (JArr [JInt 1])) Sample.server_ok Sample.good_disk)
           Sample.empty_world (JArr [JInt 1]) _ _ _ _)).
  - reflexivity.
  - reflexivity.
  - reflexivity.
  - intros kvs. discriminate.
Defined.

(* ===================================================================== *)
(** ** Failures of one entry (lines 44-66 and 126-130) *)
(* ===================================================================== *)

(** C6, as stated, fails for a failure to write the output file: the
    [OSError] of [open] is not a [RequestException], so [download_image]
    does not catch it and it ends the run.  Here the disk refuses every
    write: the run stops at the first of two entries, the second one is not
    processed and no summary is printed.  It also fails for a status that is
    not a success and not an error for [raise_for_status]: against a server
    that always answers 304 the entry is counted as successful after one
    request, not as failed. *)
Lemma entry_failure_counterexample :
  main (Sample.env
          (Some (Sample.manifest [Sample.entry "A" "https://x.com/a.png" "Ape";
                                  Sample.entry "B" "https://x.com/b.png" "Bee"]))
          Sample.server_ok Sample.bad_disk) Sample.empty_world
  = (Raise OSError,
     mkWorld ∅
       (prelude_events
        ++ [EvPrint (MFound 2); EvPrint MRule;
            EvPrint (MProcessing 1 2 (JStr "Ape")); EvPrint (MMint (JStr "A"));
            EvPrint (MDownloading "A.png");
            EvGet "https://x.com/a.png" USER_AGENT 30;
            EvWrite "nft_images/A.png"]))
  /\ ((forall tr url, SpecWords.failed_attempt (Sample.server_304 tr url) = true)
      /\ process_item (Sample.env None Sample.server_304 Sample.good_disk) 1 1
           (Sample.entry "A" "https://x.com/a.png" "Ape") (mkCounters 0 0 0)
           Sample.empty_world
         = (Ret (mkCounters 1 0 0),
            mkWorld {["nft_images/A.png" := ""]}
              [EvPrint (MProcessing 1 1 (JStr "Ape")); EvPrint (MMint (JStr "A"));
               EvPrint (MDownloading "A.png");
               EvGet "https://x.com/a.png" USER_AGENT 30;
               EvWrite "nft_images/A.png"; EvPrint (MDownloaded "A.png" 0);
               EvSleep (1 # 2)])).
Proof.
  split; [vm_compute; reflexivity|].
  split; [intros tr url; reflexivity|vm_compute; reflexivity].
Qed.

(** C6 (amended): a network failure of one entry never aborts the run.  For
    an entry with an identifier and a URL whose file is not there yet, when
    every request for the URL raises a request exception (connection error,
    timeout) or is answered with a status from 400 to 599 (the requests for
    which [raise_for_status] gives [None], see [raise_for_status_none]), the
    entry is counted as failed after 3 requests, nothing is written, and the
    loop goes on with the remaining entries. *)
Theorem network_failure_never_aborts
        (E : Env) (total i : nat) (item : json) (rest : list json) (c : counters)
        (w : world) (mint_address nft_name : json) (url file_ext : string) :
  entry_fields item = Ret (mint_address, JStr url, nft_name) ->
  Py.truthy mint_address = true ->
  url <> EmptyString ->
  get_file_extension_from_url E url = Ret file_ext ->
  files w !! OsPath.join download_dir (py_str E mint_address +:+ file_ext) = None ->
  (forall tr, raise_for_status (requests_get E tr url) = None) ->
  exists evs,
    let c' := mkCounters (successful_downloads c) (S (failed_downloads c))
                         (skipped_downloads c) in
    let w' := mkWorld (files w) (trace w ++ evs) in
    process_item E total i item c w = (Ret c', w')
    /\ count_gets evs = 3
    /\ process_items E total i (item :: rest) c w
       = process_items E total (S i) rest c' w'.
Proof.
  intros Hfields Hmint Hurl Hext Hfile Hfail.
  set (w1 := after w [EvPrint (MProcessing i total nft_name);
                      EvPrint (MMint mint_address)]).
  destruct (download_image_all_fail E url
              (OsPath.join download_dir (py_str E mint_address +:+ file_ext)) 3 w1 Hfail)
    as (evs & Hrun & _ & Hcount & _).
  assert (Hitem : process_item E total i item c w
                  = (Ret (count_failed c),
                     after w ([EvPrint (MProcessing i total nft_name);
                               EvPrint (MMint mint_address)] ++ evs
                              ++ [EvSleep (1 # 2)]))).
  { rewrite process_item_eq, Hfields. cbv zeta. rewrite Hmint.
    assert (Py.truthy (JStr url) = true) as ->.
    { simpl. destruct (String.eqb_spec url ""); [contradiction|reflexivity]. }
    simpl negb. simpl orb. cbv iota. rewrite Hext, Hfile. fold w1. rewrite Hrun.
    unfold w1. rewrite !after_after. reflexivity. }
  eexists. cbv zeta. split; [exact Hitem|]. split.
  - unfold count_gets in *. simpl. rewrite List.filter_app, length_app, Hcount.
    reflexivity.
  - rewrite process_items_cons, Hitem. reflexivity.
Qed.

Lemma network_failure_never_aborts_witness :
  exists evs,
    process_item (Sample.env None Sample.server_404 Sample.good_disk) 2 1
      (Sample.entry "A" "https://x.com/a.png" "Ape") (mkCounters 0 0 0)
      Sample.empty_world
    = (Ret (mkCounters 0 1 0), mkWorld ∅ evs)
    /\ count_gets evs = 3.
Proof.
  pose proof (network_failure_never_aborts
           (Sample.env None Sample.server_404 Sample.good_disk) 2 1
           (Sample.entry "A" "https://x.com/a.png" "Ape")
           [Sample.entry "B" "https://x.com/b.png" "Bee"] (mkCounters 0 0 0)
           Sample.empty_world (JStr "A") (JStr "Ape") "https://x.com/a.png" ".png") as H.
  destruct H as (evs & Hitem & Hcount & _).
  - reflexivity.
  - reflexivity.
  - discriminate.
  - vm_compute. reflexivity.
  - vm_compute. reflexivity.
  - intros tr. reflexivity.
  - exists evs. split; [exact Hitem|exact Hcount].
Defined.

(* ===================================================================== *)
(** ** The delay between entries (line 133) *)
(* ===================================================================== *)




(* ===================================================================== *)
(** ** Running the script again *)
(* ===================================================================== *)

Section SecondRun.

Variable E : Env.

(** An entry that was skipped or counted successful is, in any later
    world that still has the files, skipped or found on disk: the
    iteration is quiet and moves the same counter. *)
Lemma process_item_again total i item c w c' w' :
  process_item E total i item c w = (Ret c', w') ->
  failed_downloads c' = failed_downloads c ->
  forall cx wx,
    (forall p, is_Some (files w' !! p) -> is_Some (files wx !! p)) ->
    exists evs cx',
      process_item E total i item cx wx = (Ret cx', after wx evs)
      /\ forallb is_quiet evs = true
      /\ same_move c c' cx cx'.
Proof.
  intros Hrun Hfailed cx wx Hfiles.
  apply process_item_cases in Hrun.
  destruct Hrun as (m & u & nm & Hfields & Hcases). cbv zeta in Hcases.
  rewrite process_item_eq, Hfields. cbv zeta.
  destruct Hcases as [(-> & -> & ->)|(-> & url & ext & -> & Hext & Hcases)].
  { rewrite after_after. eexists. exists (count_skipped cx).
    split; [reflexivity|]. split; [reflexivity|].
    unfold same_move. simpl. lia. }
  rewrite Hext.
  assert (Hthere : is_Some (files wx !! OsPath.join download_dir
                              (py_str E m +:+ ext))).
  { apply Hfiles.
    destruct Hcases as [(content & Hfile & _ & ->)|(ok & w2 & _ & Hdl & -> & ->)].
    - cbn [after files]. rewrite Hfile. eauto.
    - destruct ok; [|simpl in Hfailed; lia].
      apply download_attempts_inv in Hdl.
      destruct Hdl as (evs & _ & _ & _ & Hwritten).
      cbn [after files]. now apply Hwritten. }
  destruct Hthere as [content' ->]. rewrite after_after.
  eexists. exists (count_successful cx).
  split; [reflexivity|]. split; [reflexivity|].
  destruct Hcases as [(content & _ & -> & _)|(ok & w2 & _ & _ & -> & _)].
  - unfold same_move. simpl. lia.
  - destruct ok; [|simpl in Hfailed; lia]. unfold same_move. simpl. lia.
Qed.

Lemma process_items_again total items :
  forall i c w c' w',
    process_items E total i items c w = (Ret c', w') ->
    failed_downloads c' = failed_downloads c ->
    forall cx wx,
      (forall p, is_Some (files w' !! p) -> is_Some (files wx !! p)) ->
      exists evs cx',
        process_items E total i items cx wx = (Ret cx', after wx evs)
        /\ forallb is_quiet evs = true
        /\ same_move c c' cx cx'.
Proof.
  induction items as [|item rest IH]; intros i c w c' w' Hrun Hfailed cx wx Hfiles.
  - injection Hrun as <- <-. exists [], cx. rewrite after_nil.
    split; [reflexivity|]. split; [reflexivity|]. unfold same_move. lia.
  - rewrite process_items_cons in Hrun.
    destruct (process_item E total i item c w) as [[c1|e] w1] eqn:H1; [|discriminate].
    pose proof (process_item_counts E _ _ _ _ _ _ _ H1) as Hc1.
    pose proof (process_items_counts E _ _ _ _ _ _ _ Hrun) as [_ Hmono].
    assert (Hf1 : failed_downloads c1 = failed_downloads c)
      by (destruct Hc1 as [-> | [-> | ->]]; simpl in *; lia).
    destruct (process_items_extends E _ _ _ _ _ _ _ Hrun) as [evs_rest [_ Hkeep]].
    destruct (process_item_again _ _ _ _ _ _ _ H1 Hf1 cx wx)
      as (evs1 & cx1 & Hagain1 & Hquiet1 & Hmove1).
    { intros p Hp. apply Hfiles, Hkeep, Hp. }
    destruct (IH _ _ _ _ _ Hrun ltac:(lia) cx1 (after wx evs1) Hfiles)
      as (evs2 & cx' & Hagain2 & Hquiet2 & Hmove2).
    exists (evs1 ++ evs2), cx'.
    rewrite process_items_cons, Hagain1, Hagain2, after_after.
    split; [reflexivity|]. split.
    + rewrite forallb_app, Hquiet1, Hquiet2. reflexivity.
    + unfold same_move in *. lia.
Qed.

(** A run that returned at line 86 does so again, whatever the world. *)
Lemma main_loop_none_again w w' :
  main_loop E w = (Ret None, w') ->
  forall wx, exists evs,
    main_loop E wx = (Ret None, after wx evs) /\ forallb is_quiet evs = true.
Proof.
  intros Hrun wx. rewrite main_loop_eq in *. cbv zeta in *.
  destruct (mkdir_fault E download_dir); [discriminate|].
  destruct (json_load E json_file) as [data|].
  2:{ rewrite !after_after. eexists. split; reflexivity. }
  destruct (negb (Py.truthy data)).
  { rewrite !after_after. eexists. split; reflexivity. }
  destruct (Py.get data "result" (JObj [])) as [result|]; [|discriminate].
  destruct (Py.get result "items" (JArr [])) as [items|]; [|discriminate].
  destruct (Py.len items) as [total|]; [|discriminate].
  destruct (Py.iter items) as [elements|]; [|discriminate].
  destruct (process_items E total 1 elements _ _) as [[c|e] w3]; discriminate.
Qed.

Lemma same_move_from_zero c cx' :
  same_move (mkCounters 0 0 0) c (mkCounters 0 0 0) cx' ->
  failed_downloads c = 0 -> cx' = c.
Proof.
  unfold same_move. destruct c, cx'. simpl. intros (? & ? & ?) ?.
  f_equal; lia.
Qed.

Lemma summary_quiet c total : forallb is_quiet (summary_events E c total) = true.
Proof.
  unfold summary_events.
  destruct (0 <? successful_downloads c)%nat;
    destruct (0 <? failed_downloads c)%nat; reflexivity.
Qed.

Lemma summary_hint c total :
  failed_downloads c <> 0 ->
  In (EvPrint (MRetryHint (failed_downloads c))) (summary_events E c total).
Proof.
  intros Hne. unfold summary_events. apply in_or_app. right.
  apply in_or_app. right.
  destruct (Nat.ltb_spec 0 (failed_downloads c)); [now left|lia].
Qed.

End SecondRun.

(** C8, as stated, fails when the first run counted a failed download.
    Against a server that is down for the first three requests, the first
    run gives up on the entry and leaves no file; the second run asks the
    server again, downloads the entry and leaves one file more. *)
Lemma second_run_counterexample :
  fst Outage.first_run = Ret tt
  /\ files (snd Outage.first_run) !! "nft_images/A.png" = None
  /\ count_gets (trace (snd Outage.first_run)) = 3
  /\ fst Outage.second_run = Ret tt
  /\ files (snd Outage.second_run) !! "nft_images/A.png" = Some "IMAGE"
  /\ count_gets (trace (snd Outage.second_run)) = 4.
Proof. repeat split; vm_compute; reflexivity. Qed.

(** C8 (amended): when a run of the script completes and its summary does
    not end with the notice of failed downloads (line 148), a second run on
    the same manifest and output directory also completes, makes no network
    request, writes no file and waits for nothing - every entry is skipped
    or found on disk - and so leaves the same files as the first run. *)
Theorem second_run_is_quiet (E : Env) (w0 w1 : world) (evs1 : list event) :
  main E w0 = (Ret tt, w1) ->
  trace w1 = trace w0 ++ evs1 ->
  (forall n, ~ In (EvPrint (MRetryHint n)) evs1) ->
  exists evs2,
    main E w1 = (Ret tt, mkWorld (files w1) (trace w1 ++ evs2))
    /\ forallb is_quiet evs2 = true
    /\ count_gets evs2 = 0.
Proof.
  intros Hrun Htrace Hhint.
  assert (Hquiet_gets : forall evs, forallb is_quiet evs = true -> count_gets evs = 0).
  { unfold count_gets. induction evs as [|[] evs IH]; simpl; intros H;
      try discriminate; auto. }
  enough (exists evs2, main E w1 = (Ret tt, after w1 evs2)
                       /\ forallb is_quiet evs2 = true) as (evs2 & H1 & H2).
  { exists evs2. split; [exact H1|]. split; [exact H2|]. now apply Hquiet_gets. }
  rewrite main_eq in Hrun.
  destruct (main_loop E w0) as [[[[c total]|]|e] w'] eqn:Hloop; [| |discriminate].
  - injection Hrun as <-.
    pose proof (main_loop_some E _ _ _ _ Hloop)
      as (data & result & items & elements & Hmk & Hload & Htrue & Hres & Hitems
          & Hlen & Hiter & Hitemsrun).
    assert (Hfailed : failed_downloads c = 0).
    { destruct (Nat.eq_dec (failed_downloads c) 0) as [|Hne]; [assumption|].
      exfalso. apply (Hhint (failed_downloads c)).
      destruct (process_items_extends E _ _ _ _ _ _ _ Hitemsrun) as [evs [Ht _]].
      cbn [after trace] in Htrace, Ht. rewrite Ht, <- !app_assoc in Htrace.
      apply app_inv_head in Htrace. rewrite <- Htrace.
      apply in_or_app. right. apply in_or_app. right.
      apply in_or_app. right. now apply summary_hint. }
    destruct (process_items_again E _ _ _ _ _ _ _ Hitemsrun Hfailed (mkCounters 0 0 0)
                (after (after w' (summary_events E c total))
                       (prelude_events ++ [EvPrint (MFound total); EvPrint MRule])))
      as (evs & cx' & Hagain & Hquiet & Hmove).
    { intros p Hp. exact Hp. }
    apply same_move_from_zero in Hmove; [|exact Hfailed]. subst cx'.
    rewrite main_eq.
    rewrite (main_loop_run E _ _ _ _ _ _ Hmk Hload Htrue Hres Hitems Hlen Hiter).
    rewrite Hagain. set (w1 := after w' (summary_events E c total)).
    rewrite !after_after. eexists. split; [reflexivity|].
    rewrite !forallb_app, Hquiet, summary_quiet. reflexivity.
  - injection Hrun as <-.
    destruct (main_loop_none_again E _ _ Hloop w') as (evs & Hagain & Hquiet).
    rewrite main_eq, Hagain. eauto.
Qed.

Lemma second_run_is_quiet_witness :
  exists evs2,
    main Scenario.env (snd (main Scenario.env Sample.empty_world))
    = (Ret tt,
       mkWorld (files (snd (main Scenario.env Sample.empty_world)))
               (trace (snd (main Scenario.env Sample.empty_world)) ++ evs2))
    /\ forallb is_quiet evs2 = true
    /\ count_gets evs2 = 0.
Proof.
  apply (second_run_is_quiet Scenario.env Sample.empty_world
           (snd (main Scenario.env Sample.empty_world))
           (trace (snd (main Scenario.env Sample.empty_world)))).
  - vm_compute. reflexivity.
  - reflexivity.
  - intros n Hin. vm_compute in Hin.
    repeat (destruct Hin as [Hin|Hin]; [discriminate Hin|]). exact Hin.
Defined.

(* ===================================================================== *)
(** ** Further properties: loading the manifest (lines 14-22, 83-86) *)
(* ===================================================================== *)

(** X1: when the manifest cannot be read or parsed, [load_collection_data]
    prints the error and [main] returns normally right away: no entry is
    processed, no request is made, no summary is printed and the files are
    as before. *)
Theorem load_failure_ends_run (E : Env) (w : world) :
  mkdir_fault E download_dir = false ->
  json_load E json_file = None ->
  main E w
  = (Ret tt,
     mkWorld (files w)
       (trace w ++ prelude_events ++ [EvPrint (MLoadError json_file)])).
Proof.
  intros Hmk Hload. rewrite main_eq, main_loop_eq. cbv zeta.
  rewrite Hmk, Hload, !after_after. reflexivity.
Qed.

Lemma load_failure_ends_run_witness :
  main (Sample.env None Sample.server_ok Sample.good_disk) Sample.empty_world
  = (Ret tt, mkWorld ∅ (prelude_events ++ [EvPrint (MLoadError "collection.json")])).
Proof.
  apply (load_failure_ends_run (Sample.env None Sample.server_ok Sample.good_disk)
           Sample.empty_world); reflexivity.
Defined.

(** X2: a manifest that parses to a false value ([null], [false], zero, the
    empty string, list or object) makes [main] return at line 86 without a
    word: no error, no entry, no summary. *)
Theorem falsy_manifest_returns_silently (E : Env) (w : world) (data : json) :
  mkdir_fault E download_dir = false ->
  json_load E json_file = Some data ->
  Py.truthy data = false ->
  main E w = (Ret tt, mkWorld (files w) (trace w ++ prelude_events)).
Proof.
  intros Hmk Hload Hfalse. rewrite main_eq, main_loop_eq. cbv zeta.
  rewrite Hmk, Hload, Hfalse, !after_after. reflexivity.
Qed.

Lemma falsy_manifest_returns_silently_witness :
  main (Sample.env (Some (JArr [])) Sample.server_ok Sample.good_disk)
       Sample.empty_world
  = (Ret tt, mkWorld ∅ prelude_events).
Proof.
  apply (falsy_manifest_returns_silently
           (Sample.env (Some (JArr [])) Sample.server_ok Sample.good_disk)
           Sample.empty_world (JArr [])); reflexivity.
Defined.

(** X3: when [result.items] is [null], a boolean or a number, [len] at line
    90 raises [TypeError]: the run ends there, before the line that tells
    how many entries were found. *)
Theorem unsized_items_raise (E : Env) (w : world) (kvs result : list (string * json))
        (items : json) :
  mkdir_fault E download_dir = false ->
  json_load E json_file = Some (JObj kvs) ->
  Py.assoc "result" kvs = Some (JObj result) ->
  Py.assoc "items" result = Some items ->
  unsized items = true ->
  main E w = (Raise TypeError, mkWorld (files w) (trace w ++ prelude_events)).
Proof.
  intros Hmk Hload Hres Hitems Hun. rewrite main_eq, main_loop_eq. cbv zeta.
  rewrite Hmk, Hload.
  assert (Py.truthy (JObj kvs) = true) as -> by (destruct kvs; [discriminate|reflexivity]).
  simpl negb. cbv iota. simpl Py.get. rewrite Hres. simpl Py.get. rewrite Hitems.
  destruct items; try discriminate; simpl; rewrite !after_after; reflexivity.
Qed.

Lemma unsized_items_raise_witness :
  main (Sample.env (Some (manifest_with (JInt 3))) Sample.server_ok Sample.good_disk)
       Sample.empty_world
  = (Raise TypeError, mkWorld ∅ prelude_events).
Proof.
  apply (unsized_items_raise
           (Sample.env (Some (manifest_with (JInt 3))) Sample.server_ok Sample.good_disk)
           Sample.empty_world [("result", JObj [("items", JInt 3)])]
           [("items", JInt 3)] (JInt 3)); reflexivity.
Defined.

(* ===================================================================== *)
(** ** Further properties: entries (lines 101-112) *)
(* ===================================================================== *)

(** X4: an entry that is not an object (a string, a number, a list, [null])
    has no [get]: line 102 raises [AttributeError] before anything is
    printed for it, and the entries after it are not processed. *)
Theorem non_dict_entry_aborts_loop
        (E : Env) (total i : nat) (item : json) (rest : list json) (c : counters)
        (w : world) :
  (forall kvs, item <> JObj kvs) ->
  process_items E total i (item :: rest) c w = (Raise AttributeError, w).
Proof.
  intros Hshape. rewrite process_items_cons, process_item_eq.
  destruct item; try reflexivity. exfalso. now apply (Hshape kvs).
Qed.

Lemma non_dict_entry_aborts_loop_witness :
  process_items (Sample.env None Sample.server_ok Sample.good_disk) 2 1
    [JStr "Mint1"; Sample.entry "A" "https://x.com/a.png" "Ape"] (mkCounters 0 0 0)
    Sample.empty_world
  = (Raise AttributeError, Sample.empty_world).
Proof.
  apply (non_dict_entry_aborts_loop
           (Sample.env None Sample.server_ok Sample.good_disk) 2 1 (JStr "Mint1")).
  intros kvs. discriminate.
Defined.

(** X5: when [result.items] is a non-empty object (entries keyed by name)
    or a non-empty string instead of a list, the loop goes through its keys
    or characters, which are strings: the run prints how many it found and
    then ends with [AttributeError] at the first one. *)
Theorem keyed_items_abort (E : Env) (w : world) (kvs result : list (string * json))
        (items : json) (n : nat) :
  mkdir_fault E download_dir = false ->
  json_load E json_file = Some (JObj kvs) ->
  Py.assoc "result" kvs = Some (JObj result) ->
  Py.assoc "items" result = Some items ->
  (exists ikvs, items = JObj ikvs) \/ (exists s, items = JStr s) ->
  Py.len items = Ret (S n) ->
  main E w
  = (Raise AttributeError,
     mkWorld (files w)
       (trace w ++ prelude_events ++ [EvPrint (MFound (S n)); EvPrint MRule])).
Proof.
  intros Hmk Hload Hres Hitems Hshape Hlen.
  assert (Hiter : exists first others,
             Py.iter items = Ret (first :: others) /\ forall k, first <> JObj k).
  { destruct Hshape as [[ikvs ->] | [s ->]].
    - destruct ikvs as [|[k v] ikvs]; [discriminate|].
      eexists _, _. split; [reflexivity|]. intros k'. discriminate.
    - destruct s as [|ch s]; [discriminate|].
      eexists _, _. split; [reflexivity|]. intros k'. discriminate. }
  destruct Hiter as (first & others & Hiter & Hfirst).
  rewrite main_eq.
  rewrite (main_loop_run E w (JObj kvs) (JObj result) items (S n) (first :: others));
    try assumption.
  - rewrite process_items_cons, process_item_eq.
    destruct first as [| | | | | |fkvs]; try reflexivity.
    exfalso. now apply (Hfirst fkvs).
  - destruct kvs; [discriminate|reflexivity].
  - simpl. now rewrite Hres.
  - simpl. now rewrite Hitems.
Qed.

Lemma keyed_items_abort_witness :
  main (Sample.env
          (Some (manifest_with
                   (JObj [("Mint1", Sample.entry "Mint1" "https://x.com/a.png" "Ape")])))
          Sample.server_ok Sample.good_disk) Sample.empty_world
  = (Raise AttributeError,
     mkWorld ∅ (prelude_events ++ [EvPrint (MFound 1); EvPrint MRule])).
Proof.
  apply (keyed_items_abort
           (Sample.env
              (Some (manifest_with
                       (JObj [("Mint1", Sample.entry "Mint1" "https://x.com/a.png" "Ape")])))
              Sample.server_ok Sample.good_disk)
           Sample.empty_world
           [("result", JObj [("items",
               JObj [("Mint1", Sample.entry "Mint1" "https://x.com/a.png" "Ape")])])]
           [("items", JObj [("Mint1", Sample.entry "Mint1" "https://x.com/a.png" "Ape")])]
           (JObj [("Mint1", Sample.entry "Mint1" "https://x.com/a.png" "Ape")]) 0);
    try reflexivity.
  left. eexists. reflexivity.
Defined.

(** X6: an entry whose identifier or image URL is false (empty, [null],
    zero) is skipped: the skipped counter goes up by one, the other two
    stay, the files stay as they are, and nothing but the three lines for
    the entry is done: no request, no write, no wait. *)
Theorem empty_field_is_skipped
        (E : Env) (total i : nat) (item : json) (c : counters) (w : world)
        (mint_address image_url nft_name : json) :
  entry_fields item = Ret (mint_address, image_url, nft_name) ->
  Py.truthy mint_address = false \/ Py.truthy image_url = false ->
  process_item E total i item c w
  = (Ret (mkCounters (successful_downloads c) (failed_downloads c)
                     (S (skipped_downloads c))),
     mkWorld (files w)
       (trace w ++ [EvPrint (MProcessing i total nft_name);
                    EvPrint (MMint mint_address); EvPrint MSkipMissing])).
Proof.
  intros Hfields Hfalse. rewrite process_item_eq, Hfields. cbv zeta.
  assert (negb (Py.truthy mint_address) || negb (Py.truthy image_url) = true) as ->.
  { destruct Hfalse as [-> | ->]; [reflexivity|apply orb_true_r]. }
  rewrite after_after. reflexivity.
Qed.

Lemma empty_field_is_skipped_witness :
  process_item (Sample.env None Sample.server_ok Sample.good_disk) 1 1
    (Sample.entry "" "https://x.com/a.png" "Ape") (mkCounters 4 2 0)
    Sample.empty_world
  = (Ret (mkCounters 4 2 1),
     mkWorld ∅ [EvPrint (MProcessing 1 1 (JStr "Ape")); EvPrint (MMint (JStr ""));
                EvPrint MSkipMissing]).
Proof.
  apply (empty_field_is_skipped (Sample.env None Sample.server_ok Sample.good_disk)
           1 1 (Sample.entry "" "https://x.com/a.png" "Ape") (mkCounters 4 2 0)
           Sample.empty_world (JStr "") (JStr "https://x.com/a.png") (JStr "Ape")).
  - reflexivity.
  - left. reflexivity.
Defined.

(** X7: an entry in which the key [id] or the path [content.links.image] is
    absent gets the empty string for it (the defaults of lines 102-103), so
    it is skipped; a missing [content.metadata.name] only makes the name
    ["Unknown"]. *)
Theorem absent_field_defaults
        (item : json) (mint_address image_url nft_name : json) :
  entry_fields item = Ret (mint_address, image_url, nft_name) ->
  (SpecWords.json_path ["id"] item = None -> mint_address = JStr "")
  /\ (SpecWords.json_path ["content"; "links"; "image"] item = None ->
      image_url = JStr "")
  /\ (SpecWords.json_path ["content"; "metadata"; "name"] item = None ->
      nft_name = JStr "Unknown").
Proof.
  unfold entry_fields. destruct item as [| | | | | |kvs]; try discriminate.
  simpl. destruct (Py.assoc "id" kvs) as [idv|] eqn:Hid.
  - destruct (Py.assoc "content" kvs) as [content|] eqn:Hcontent.
    + destruct content as [| | | | | |ckvs]; try discriminate. simpl.
      destruct (Py.assoc "links" ckvs) as [links|];
        [destruct links as [| | | | | |lkvs]; try discriminate|]; simpl;
        (destruct (Py.assoc "metadata" ckvs) as [metadata|];
         [destruct metadata as [| | | | | |mkvs]; try discriminate|]); simpl;
        intros [= <- <- <-]; repeat split; try discriminate;
        try (destruct (Py.assoc "image" lkvs); [discriminate|reflexivity]);
        try (destruct (Py.assoc "name" mkvs); [discriminate|reflexivity]);
        reflexivity.
    + simpl. intros [= <- <- <-]. repeat split; try discriminate; reflexivity.
  - destruct (Py.assoc "content" kvs) as [content|] eqn:Hcontent.
    + destruct content as [| | | | | |ckvs]; try discriminate. simpl.
      destruct (Py.assoc "links" ckvs) as [links|];
        [destruct links as [| | | | | |lkvs]; try discriminate|]; simpl;
        (destruct (Py.assoc "metadata" ckvs) as [metadata|];
         [destruct metadata as [| | | | | |mkvs]; try discriminate|]); simpl;
        intros [= <- <- <-]; repeat split; try discriminate;
        try (destruct (Py.assoc "image" lkvs); [discriminate|reflexivity]);
        try (destruct (Py.assoc "name" mkvs); [discriminate|reflexivity]);
        reflexivity.
    + simpl. intros [= <- <- <-]. repeat split; try discriminate; reflexivity.
Qed.

Lemma absent_field_defaults_witness :
  (SpecWords.json_path ["id"] (Sample.entry_without_id "https://x.com/a.png") = None
   -> JStr "" = JStr "")
  /\ (SpecWords.json_path ["content"; "links"; "image"]
        (Sample.entry_without_id "https://x.com/a.png") = None
      -> JStr "https://x.com/a.png" = JStr "")
  /\ (SpecWords.json_path ["content"; "metadata"; "name"]
        (Sample.entry_without_id "https://x.com/a.png") = None
      -> JStr "Unknown" = JStr "Unknown").
Proof.
  apply (absent_field_defaults (Sample.entry_without_id "https://x.com/a.png")
           (JStr "") (JStr "https://x.com/a.png") (JStr "Unknown")).
  reflexivity.
Defined.

(* ===================================================================== *)
(** ** Further properties: the fetcher (lines 38-66) *)
(* ===================================================================== *)

Lemma count_gets_app evs evs' :
  count_gets (evs ++ evs') = count_gets evs + count_gets evs'.
Proof. unfold count_gets. now rewrite List.filter_app, length_app. Qed.

Lemma count_writes_app evs evs' :
  count_writes (evs ++ evs') = count_writes evs + count_writes evs'.
Proof. unfold count_writes. now rewrite List.filter_app, length_app. Qed.

Section FetcherFrame.

Variable E : Env.

Lemma write_file_frame filepath content w r w' :
  write_file E filepath content w = (r, w') ->
  trace w' = trace w ++ [EvWrite filepath]
  /\ forall p, p <> filepath -> files w' !! p = files w !! p.
Proof.
  unfold write_file.
  destruct (write_fault E w filepath content); intros [= <- <-]; cbn [files trace log];
    (split; [reflexivity|]); intros p Hp;
    rewrite ?lookup_insert_ne by congruence; reflexivity.
Qed.

(** Whatever the server and the disk do and however it ends, the loop of
    [download_image] asks at most once per iteration, for its own URL only,
    writes at most once and only to its own path, and waits 2 when it
    waits. *)
Lemma download_attempts_frame url filepath max_retries n :
  forall attempt w r w',
    download_attempts E url filepath max_retries n attempt w = (r, w') ->
    exists evs,
      trace w' = trace w ++ evs
      /\ count_gets evs <= n
      /\ count_writes evs <= 1
      /\ Forall (fetch_event url filepath) evs
      /\ (forall p, p <> filepath -> files w' !! p = files w !! p).
Proof.
  induction n as [|n IH]; intros attempt w r w' Hrun.
  - injection Hrun as <- <-. exists []. rewrite app_nil_r.
    repeat split; auto.
  - rewrite download_attempts_S in Hrun. cbv zeta in Hrun.
    destruct (raise_for_status _) as [content|].
    + rewrite bind_run in Hrun.
      destruct (write_file E filepath content _) as [[[]|e] w2] eqn:Hw;
        destruct (write_file_frame _ _ _ _ _ Hw) as [Ht Hf]; cbn [after trace files] in *.
      * rewrite bind_print in Hrun. injection Hrun as <- <-.
        exists [EvPrint (MDownloading (OsPath.basename filepath));
                EvGet url USER_AGENT 30; EvWrite filepath;
                EvPrint (MDownloaded (OsPath.basename filepath) (String.length content))].
        cbn [log trace files]. rewrite Ht, <- !app_assoc.
        split; [reflexivity|]. split; [unfold count_gets in *; simpl; lia|].
        split; [unfold count_writes in *; simpl; lia|].
        split; [|exact Hf]. repeat constructor.
      * injection Hrun as <- <-.
        exists [EvPrint (MDownloading (OsPath.basename filepath));
                EvGet url USER_AGENT 30; EvWrite filepath].
        rewrite Ht, <- !app_assoc.
        split; [reflexivity|]. split; [unfold count_gets in *; simpl; lia|].
        split; [unfold count_writes in *; simpl; lia|].
        split; [|exact Hf]. repeat constructor.
    + destruct (attempt <? max_retries - 1)%Z.
      * apply IH in Hrun. destruct Hrun as (evs & Ht & Hg & Hw & Hall & Hf).
        exists ([EvPrint (MDownloading (OsPath.basename filepath));
                 EvGet url USER_AGENT 30;
                 EvPrint (MAttemptFailed (attempt + 1)); EvSleep 2] ++ evs).
        cbn [after trace files] in *. rewrite Ht, <- !app_assoc.
        split; [reflexivity|].
        rewrite count_gets_app, count_writes_app.
        split; [unfold count_gets in *; simpl; lia|].
        split; [unfold count_writes in *; simpl; lia|].
        split; [|exact Hf]. repeat constructor; assumption.
      * injection Hrun as <- <-.
        exists [EvPrint (MDownloading (OsPath.basename filepath));
                EvGet url USER_AGENT 30;
                EvPrint (MAttemptFailed (attempt + 1));
                EvPrint (MGaveUp max_retries)].
        cbn [after trace files]. rewrite <- !app_assoc.
        split; [reflexivity|]. split; [unfold count_gets in *; simpl; lia|].
        split; [unfold count_writes in *; simpl; lia|].
        split; [|auto]. repeat constructor.
Qed.

(** The loop returns [False] only after all its iterations have asked the
    server, and then it has written nothing. *)
Lemma download_attempts_false url filepath max_retries n :
  forall attempt w w',
    (attempt + Z.of_nat n = max_retries)%Z ->
    download_attempts E url filepath max_retries n attempt w = (Ret false, w') ->
    exists evs,
      w' = after w evs /\ count_gets evs = n /\ count_writes evs = 0.
Proof.
  induction n as [|n IH]; intros attempt w w' Hn Hrun.
  - injection Hrun as <-. exists []. now rewrite after_nil.
  - rewrite download_attempts_S in Hrun. cbv zeta in Hrun.
    destruct (raise_for_status _) as [content|].
    + rewrite bind_run in Hrun.
      destruct (write_file E filepath content _) as [[[]|e] w2]; [|discriminate].
      rewrite bind_print in Hrun. discriminate.
    + destruct (attempt <? max_retries - 1)%Z eqn:Hlt.
      * apply IH in Hrun; [|lia]. destruct Hrun as (evs & -> & Hg & Hw).
        rewrite !after_after. eexists. split; [reflexivity|].
        rewrite !count_gets_app, !count_writes_app, Hg, Hw. split; reflexivity.
      * apply Z.ltb_ge in Hlt. assert (n = 0) as -> by lia.
        injection Hrun as <-. rewrite after_after. eexists.
        split; [reflexivity|]. split; reflexivity.
Qed.

(** Against a server that fails the first [k] requests it gets from now on
    and answers the next one, on a disk that takes the write, the loop
    succeeds at its attempt [k + 1]. *)
Lemma download_attempts_recover url filepath max_retries content k :
  forall n attempt w,
    (attempt + Z.of_nat n = max_retries)%Z ->
    k < n ->
    (forall tr, count_gets tr < count_gets (trace w) + k ->
                raise_for_status (requests_get E tr url) = None) ->
    (forall tr, count_gets tr = count_gets (trace w) + k ->
                raise_for_status (requests_get E tr url) = Some content) ->
    reliable_disk E ->
    exists evs,
      download_attempts E url filepath max_retries n attempt w
      = (Ret true, mkWorld (<[filepath := content]> (files w)) (trace w ++ evs))
      /\ net_events evs
         = attempts_with_waits (EvGet url USER_AGENT 30) (EvSleep 2) (S k).
Proof.
  induction k as [|k IH]; intros n attempt w Hn Hk Hfail Hok Hdisk;
    (destruct n as [|n]; [lia|]); rewrite download_attempts_S; cbv zeta.
  - rewrite Hok.
    2:{ rewrite count_gets_app. unfold count_gets. simpl. lia. }
    rewrite bind_run. unfold write_file at 1. rewrite Hdisk.
    rewrite bind_print. unfold log, after. cbn [trace files].
    eexists. rewrite <- !app_assoc. split; reflexivity.
  - rewrite Hfail.
    2:{ rewrite count_gets_app. unfold count_gets. simpl. lia. }
    assert ((attempt <? max_retries - 1)%Z = true) as -> by (apply Z.ltb_lt; lia).
    rewrite after_after.
    destruct (IH n (attempt + 1)%Z
                (after w ([EvPrint (MDownloading (OsPath.basename filepath));
                           EvGet url USER_AGENT 30]
                          ++ [EvPrint (MAttemptFailed (attempt + 1)); EvSleep 2])))
      as (evs & Hrun & Hnet); [lia|lia| | |exact Hdisk|].
    + intros tr Htr. apply Hfail. cbn [after trace] in Htr.
      rewrite !count_gets_app in Htr. unfold count_gets in Htr |- *.
      simpl in Htr. lia.
    + intros tr Htr. apply Hok. cbn [after trace] in Htr.
      rewrite !count_gets_app in Htr. unfold count_gets in Htr |- *.
      simpl in Htr. lia.
    + rewrite Hrun. cbn [after trace files]. eexists.
      rewrite <- !app_assoc. split; [reflexivity|].
      simpl. rewrite Hnet. reflexivity.
Qed.

End FetcherFrame.

(** X8: when the first answer is not an error (any status outside 400-599)
    and the disk takes the write, [download_image] returns [True] after a
    single request and no wait, and the destination holds exactly the body
    of the response. *)
Theorem first_response_is_written
        (E : Env) (url filepath content : string) (max_retries : Z) (w : world) :
  (0 < max_retries)%Z ->
  raise_for_status
    (requests_get E (trace w ++ [EvPrint (MDownloading (OsPath.basename filepath))]) url)
  = Some content ->
  write_fault E (after w [EvPrint (MDownloading (OsPath.basename filepath));
                          EvGet url USER_AGENT 30]) filepath content = NoFault ->
  download_image E url filepath max_retries w
  = (Ret true,
     mkWorld (<[filepath := content]> (files w))
       (trace w ++ [EvPrint (MDownloading (OsPath.basename filepath));
                    EvGet url USER_AGENT 30; EvWrite filepath;
                    EvPrint (MDownloaded (OsPath.basename filepath)
                                         (String.length content))])).
Proof.
  intros Hpos Hresp Hdisk. unfold download_image.
  destruct (Z.to_nat max_retries) as [|n] eqn:Hn; [lia|].
  rewrite download_attempts_S. cbv zeta. rewrite Hresp.
  rewrite bind_run. unfold write_file at 1. rewrite Hdisk.
  rewrite bind_print. unfold log, after. cbn [trace files]. rewrite <- !app_assoc. reflexivity.
Qed.

Lemma first_response_is_written_witness :
  download_image (Sample.env None Sample.server_ok Sample.good_disk)
    "https://x.com/a.png" "nft_images/A.png" 3 Sample.empty_world
  = (Ret true,
     mkWorld {["nft_images/A.png" := "IMAGE"]}
       [EvPrint (MDownloading "A.png"); EvGet "https://x.com/a.png" USER_AGENT 30;
        EvWrite "nft_images/A.png"; EvPrint (MDownloaded "A.png" 5)]).
Proof.
  pose proof (first_response_is_written
                (Sample.env None Sample.server_ok Sample.good_disk)
                "https://x.com/a.png" "nft_images/A.png" "IMAGE" 3
                Sample.empty_world) as H.
  vm_compute in H. vm_compute. apply H; reflexivity.
Defined.

(** X9: when the server fails the first [k] requests and answers the next
    one, with [k] smaller than [max_retries], and the disk takes the write,
    [download_image] returns [True] after exactly [k + 1] requests with a
    wait of 2 between consecutive ones, and the destination holds the body
    of the answer. *)
Theorem download_recovers_after_failures
        (E : Env) (url filepath content : string) (max_retries : Z) (k : nat)
        (w : world) :
  (Z.of_nat k < max_retries)%Z ->
  (forall tr, count_gets tr < count_gets (trace w) + k ->
              raise_for_status (requests_get E tr url) = None) ->
  (forall tr, count_gets tr = count_gets (trace w) + k ->
              raise_for_status (requests_get E tr url) = Some content) ->
  reliable_disk E ->
  exists evs,
    download_image E url filepath max_retries w
    = (Ret true, mkWorld (<[filepath := content]> (files w)) (trace w ++ evs))
    /\ count_gets evs = S k
    /\ net_events evs
       = attempts_with_waits (EvGet url USER_AGENT 30) (EvSleep 2) (S k).
Proof.
  intros Hk Hfail Hok Hdisk. unfold download_image.
  destruct (download_attempts_recover E url filepath max_retries content k
              (Z.to_nat max_retries) 0%Z w) as (evs & Hrun & Hnet);
    try assumption; try lia.
  exists evs. split; [exact Hrun|]. split; [|exact Hnet].
  now rewrite <- (count_gets_net_events evs), Hnet, count_gets_attempts.
Qed.

Lemma download_recovers_after_failures_witness :
  exists evs,
    download_image (Sample.env None (Sample.server_down_for 2) Sample.good_disk)
      "https://x.com/a.png" "nft_images/A.png" 3 Sample.empty_world
    = (Ret true, mkWorld (<["nft_images/A.png" := "IMAGE"]> ∅) ([] ++ evs))
    /\ count_gets evs = 3
    /\ net_events evs
       = attempts_with_waits (EvGet "https://x.com/a.png" USER_AGENT 30) (EvSleep 2) 3.
Proof.
  apply (download_recovers_after_failures
           (Sample.env None (Sample.server_down_for 2) Sample.good_disk)
           "https://x.com/a.png" "nft_images/A.png" "IMAGE" 3 2 Sample.empty_world).
  - lia.
  - intros tr Htr. simpl in *. unfold Sample.server_down_for.
    destruct (Nat.ltb_spec (count_gets tr) 2); [reflexivity|lia].
  - intros tr Htr. simpl in *. unfold Sample.server_down_for.
    destruct (Nat.ltb_spec (count_gets tr) 2); [lia|reflexivity].
  - intros w p c. reflexivity.
Defined.

(** X10: however the server and the disk behave and however the call ends,
    [download_image] makes at most [max_retries] requests, all of them for
    its own URL with the fixed header and a timeout of 30, writes at most
    once and only to its own path, waits 2 whenever it waits, and leaves
    every other file as it was. *)
Theorem download_image_discipline
        (E : Env) (url filepath : string) (max_retries : Z) (w w' : world)
        (r : outcome bool) :
  download_image E url filepath max_retries w = (r, w') ->
  exists evs,
    trace w' = trace w ++ evs
    /\ count_gets evs <= Z.to_nat max_retries
    /\ count_writes evs <= 1
    /\ Forall (fetch_event url filepath) evs
    /\ (forall p, p <> filepath -> files w' !! p = files w !! p).
Proof. apply download_attempts_frame. Qed.

Lemma download_image_discipline_witness :
  exists evs,
    trace (snd (download_image (Sample.env None (Sample.server_down_for 2) Sample.bad_disk)
                  "https://x.com/a.png" "nft_images/A.png" 3 Sample.empty_world))
    = [] ++ evs
    /\ count_gets evs <= 3
    /\ count_writes evs <= 1
    /\ Forall (fetch_event "https://x.com/a.png" "nft_images/A.png") evs
    /\ (forall p, p <> "nft_images/A.png" ->
          files (snd (download_image
                        (Sample.env None (Sample.server_down_for 2) Sample.bad_disk)
                        "https://x.com/a.png" "nft_images/A.png" 3 Sample.empty_world))
          !! p = (∅ : gmap string string) !! p).
Proof.
  apply (download_image_discipline
           (Sample.env None (Sample.server_down_for 2) Sample.bad_disk)
           "https://x.com/a.png" "nft_images/A.png" 3 Sample.empty_world _
           (Raise OSError)).
  vm_compute. reflexivity.
Defined.

(* ===================================================================== *)
(** ** Further properties: files and requests of a run (lines 96-133) *)
(* ===================================================================== *)

Section DriverFrame.

Variable E : Env.

(** One iteration, however it ends, keeps every file that was there with
    its content and makes at most three requests. *)
Lemma process_item_frame total i item c w r w' :
  process_item E total i item c w = (r, w') ->
  exists evs,
    trace w' = trace w ++ evs
    /\ count_gets evs <= 3
    /\ (forall p content, files w !! p = Some content -> files w' !! p = Some content).
Proof.
  rewrite process_item_eq.
  destruct (entry_fields item) as [[[m u] nm]|e].
  2:{ intros [= <- <-]. exists []. rewrite app_nil_r. repeat split; auto. }
  cbv zeta. destruct (negb (Py.truthy m) || negb (Py.truthy u)).
  { intros [= <- <-]. rewrite after_after. eexists.
    split; [reflexivity|]. split; [unfold count_gets; simpl; lia|auto]. }
  destruct u as [| | | |url| |];
    try (intros [= <- <-]; eexists; split; [reflexivity|];
         split; [unfold count_gets; simpl; lia|auto]).
  destruct (get_file_extension_from_url E url) as [ext|e].
  2:{ intros [= <- <-]. eexists. split; [reflexivity|].
      split; [unfold count_gets; simpl; lia|auto]. }
  destruct (files w !! _) as [content0|] eqn:Hfile.
  { intros [= <- <-]. rewrite after_after. eexists.
    split; [reflexivity|]. split; [unfold count_gets; simpl; lia|auto]. }
  destruct (download_image E url _ 3 _) as [ro w2] eqn:Hdl.
  apply download_attempts_frame in Hdl.
  destruct Hdl as (evs & Ht & Hg & _ & _ & Hframe).
  cbn [after trace files] in Ht, Hframe.
  assert (Hkeep : forall p content,
             files w !! p = Some content -> files w2 !! p = Some content).
  { intros p content Hp. rewrite Hframe; [exact Hp|]. intros ->. congruence. }
  destruct ro as [ok|e]; intros [= <- <-].
  - exists ([EvPrint (MProcessing i total nm); EvPrint (MMint m)] ++ evs
            ++ [EvSleep (1 # 2)]).
    cbn [after trace files]. rewrite Ht, <- !app_assoc.
    split; [reflexivity|]. split; [|exact Hkeep].
    rewrite !count_gets_app. unfold count_gets in *. simpl. simpl in Hg. lia.
  - exists ([EvPrint (MProcessing i total nm); EvPrint (MMint m)] ++ evs).
    rewrite Ht, <- !app_assoc.
    split; [reflexivity|]. split; [|exact Hkeep].
    rewrite !count_gets_app. unfold count_gets in *. simpl. simpl in Hg. lia.
Qed.

Lemma process_items_frame total items :
  forall i c w r w',
    process_items E total i items c w = (r, w') ->
    exists evs,
      trace w' = trace w ++ evs
      /\ count_gets evs <= 3 * List.length items
      /\ (forall p content, files w !! p = Some content -> files w' !! p = Some content).
Proof.
  induction items as [|item rest IH]; intros i c w r w' Hrun.
  - injection Hrun as <- <-. exists []. rewrite app_nil_r.
    repeat split; auto.
  - rewrite process_items_cons in Hrun.
    destruct (process_item E total i item c w) as [[c1|e] w1] eqn:H1;
      apply process_item_frame in H1; destruct H1 as (evs1 & Ht1 & Hg1 & Hk1).
    + apply IH in Hrun. destruct Hrun as (evs2 & Ht2 & Hg2 & Hk2).
      exists (evs1 ++ evs2). rewrite Ht2, Ht1, <- app_assoc.
      split; [reflexivity|]. rewrite count_gets_app.
      split; [simpl List.length; lia|]. intros p content Hp. now apply Hk2, Hk1.
    + injection Hrun as <- <-. exists evs1.
      split; [exact Ht1|]. split; [simpl List.length; lia|exact Hk1].
Qed.

(** An entry that was skipped or counted successful is, at any later time
    that still has the files, handled without a request, a write or a wait,
    and is never counted as failed. *)
Lemma process_item_revisit total i item c w c' w' :
  process_item E total i item c w = (Ret c', w') ->
  failed_downloads c' = failed_downloads c ->
  forall total2 j cx wx,
    (forall p, is_Some (files w' !! p) -> is_Some (files wx !! p)) ->
    exists evs cx',
      process_item E total2 j item cx wx = (Ret cx', after wx evs)
      /\ forallb is_quiet evs = true
      /\ failed_downloads cx' = failed_downloads cx.
Proof.
  intros Hrun Hfailed total2 j cx wx Hfiles.
  apply process_item_cases in Hrun.
  destruct Hrun as (m & u & nm & Hfields & Hcases). cbv zeta in Hcases.
  rewrite process_item_eq, Hfields. cbv zeta.
  destruct Hcases as [(-> & -> & ->)|(-> & url & ext & -> & Hext & Hcases)].
  { rewrite after_after. eexists. exists (count_skipped cx).
    repeat split. }
  rewrite Hext.
  assert (Hthere : is_Some (files wx !! OsPath.join download_dir
                              (py_str E m +:+ ext))).
  { apply Hfiles.
    destruct Hcases as [(content & Hfile & _ & ->)|(ok & w2 & _ & Hdl & -> & ->)].
    - cbn [after files]. rewrite Hfile. eauto.
    - destruct ok; [|simpl in Hfailed; lia].
      apply download_attempts_inv in Hdl.
      destruct Hdl as (evs & _ & _ & _ & Hwritten).
      cbn [after files]. now apply Hwritten. }
  destruct Hthere as [content' ->]. rewrite after_after.
  eexists. exists (count_successful cx). repeat split.
Qed.

End DriverFrame.

(** X11: a run never removes a file and never changes one that is already
    there, however it ends: every file on disk before [main] is on disk
    after it with the same content (downloads only go to paths that hold no
    file). *)
Theorem run_keeps_existing_files
        (E : Env) (w w' : world) (r : outcome unit) (p content : string) :
  main E w = (r, w') ->
  files w !! p = Some content ->
  files w' !! p = Some content.
Proof.
  rewrite main_eq, main_loop_eq. cbv zeta.
  destruct (mkdir_fault E download_dir); [intros [= <- <-]; auto|].
  destruct (json_load E json_file) as [data|]; [|intros [= <- <-]; auto].
  destruct (negb (Py.truthy data)); [intros [= <- <-]; auto|].
  destruct (Py.get data "result" (JObj [])) as [result|]; [|intros [= <- <-]; auto].
  destruct (Py.get result "items" (JArr [])) as [items|]; [|intros [= <- <-]; auto].
  destruct (Py.len items) as [total|]; [|intros [= <- <-]; auto].
  destruct (Py.iter items) as [elements|]; [|intros [= <- <-]; auto].
  destruct (process_items E total 1 elements _ _) as [[c|e] w3] eqn:Hloop;
    apply process_items_frame in Hloop; destruct Hloop as (evs & _ & _ & Hkeep);
    intros [= <- <-] Hp; apply Hkeep, Hp.
Qed.

Lemma run_keeps_existing_files_witness :
  files (snd (main Scenario.env (mkWorld {["nft_images/Mint1.png" := "KEEP"]} [])))
  !! "nft_images/Mint1.png" = Some "KEEP".
Proof.
  apply (run_keeps_existing_files Scenario.env
           (mkWorld {["nft_images/Mint1.png" := "KEEP"]} []) _ (Ret tt)
           "nft_images/Mint1.png" "KEEP").
  - vm_compute. reflexivity.
  - vm_compute. reflexivity.
Defined.

(** X12: a run that reaches the summary with [total] entries has made at
    most [3 * total] requests: three per entry, whatever the server
    answers. *)
Theorem run_request_bound
        (E : Env) (w w' : world) (c : counters) (total : nat) :
  main_loop E w = (Ret (Some (c, total)), w') ->
  exists evs, trace w' = trace w ++ evs /\ count_gets evs <= 3 * total.
Proof.
  intros Hrun.
  pose proof (main_loop_some E w c total w' Hrun)
    as (data & result & items & elements & _ & _ & _ & _ & _ & Hlen & Hiter & Hloop).
  pose proof (len_iter _ _ _ Hlen Hiter) as ->.
  apply process_items_frame in Hloop. destruct Hloop as (evs & Ht & Hg & _).
  exists ((prelude_events ++ [EvPrint (MFound (List.length elements)); EvPrint MRule])
          ++ evs).
  cbn [after trace] in Ht. rewrite Ht, <- !app_assoc.
  split; [reflexivity|]. rewrite count_gets_app.
  unfold count_gets in *. simpl. simpl in Hg. lia.
Qed.

Lemma run_request_bound_witness :
  exists evs,
    trace (snd (main_loop Scenario.env Sample.empty_world)) = [] ++ evs
    /\ count_gets evs <= 3 * 3.
Proof.
  apply (run_request_bound Scenario.env Sample.empty_world _ (mkCounters 2 0 1) 3).
  vm_compute. reflexivity.
Defined.

(** X13: an entry is counted as successful only when its destination
    [nft_images/<id><ext>] exists afterwards ([os.path.exists] holds of it):
    either the path was already there when the entry was reached, and then
    nothing was written, or it was not there and [download_image] has
    returned [True] for it. *)
Theorem successful_entry_destination_exists
        (E : Env) (total i : nat) (item : json) (c : counters) (w w' : world) :
  process_item E total i item c w = (Ret (count_successful c), w') ->
  exists mint_address nft_name url file_ext,
    entry_fields item = Ret (mint_address, JStr url, nft_name)
    /\ get_file_extension_from_url E url = Ret file_ext
    /\ let filepath := OsPath.join download_dir
                         (py_str E mint_address +:+ file_ext) in
       path_exists filepath w' = (Ret true, w')
       /\ ((path_exists filepath w = (Ret true, w) /\ files w' = files w)
           \/ (path_exists filepath w = (Ret false, w)
               /\ exists w2,
                   download_image E url filepath 3
                     (after w [EvPrint (MProcessing i total nft_name);
                               EvPrint (MMint mint_address)])
                   = (Ret true, w2)
                   /\ w' = after w2 [EvSleep (1 # 2)])).
Proof.
  intros Hrun. apply process_item_cases in Hrun.
  destruct Hrun as (m & u & nm & Hfields & Hcases). cbv zeta in Hcases.
  destruct Hcases as [(_ & Hc & _)|(_ & url & ext & -> & Hext & Hcases)].
  { exfalso. injection Hc as Hc. lia. }
  exists m, nm, url, ext. split; [exact Hfields|]. split; [exact Hext|].
  cbv zeta. unfold path_exists.
  destruct Hcases as [(content & Hfile & _ & ->)|(ok & w2 & Hfile & Hdl & Hc & ->)].
  - cbn [after files]. rewrite Hfile. split; [reflexivity|].
    left. split; reflexivity.
  - destruct ok; [|exfalso; injection Hc as Hc; lia].
    pose proof Hdl as Hinv. apply download_attempts_inv in Hinv.
    destruct Hinv as (evs & _ & _ & _ & Hwritten).
    destruct (Hwritten eq_refl) as [content Hcontent].
    cbn [after files]. rewrite Hcontent, Hfile. split; [reflexivity|].
    right. split; [reflexivity|]. exists w2. split; [exact Hdl|reflexivity].
Qed.

Lemma successful_entry_destination_exists_witness :
  exists mint_address nft_name url file_ext,
    entry_fields (Sample.entry "A" "https://x.com/a.png" "Ape")
    = Ret (mint_address, JStr url, nft_name)
    /\ get_file_extension_from_url
         (Sample.env None Sample.server_ok Sample.good_disk) url = Ret file_ext
    /\ path_exists
         (OsPath.join download_dir
            (py_str (Sample.env None Sample.server_ok Sample.good_disk) mint_address
             +:+ file_ext))
         (snd (process_item (Sample.env None Sample.server_ok Sample.good_disk) 1 1
                 (Sample.entry "A" "https://x.com/a.png" "Ape")
                 (mkCounters 0 0 0) Sample.empty_world))
       = (Ret true,
          snd (process_item (Sample.env None Sample.server_ok Sample.good_disk) 1 1
                 (Sample.entry "A" "https://x.com/a.png" "Ape")
                 (mkCounters 0 0 0) Sample.empty_world)).
Proof.
  destruct (successful_entry_destination_exists
              (Sample.env None Sample.server_ok Sample.good_disk) 1 1
              (Sample.entry "A" "https://x.com/a.png" "Ape") (mkCounters 0 0 0)
              Sample.empty_world
              (snd (process_item (Sample.env None Sample.server_ok Sample.good_disk)
                      1 1 (Sample.entry "A" "https://x.com/a.png" "Ape")
                      (mkCounters 0 0 0) Sample.empty_world)))
    as (m & nm & url & ext & Hfields & Hext & Hexists & _).
  - vm_compute. reflexivity.
  - exists m, nm, url, ext. split; [exact Hfields|]. split; [exact Hext|exact Hexists].
Defined.

(** X14: an entry is counted as failed only after exactly three requests,
    all of them failed: the iteration has then written nothing and the
    files are as they were, so the destination still holds no file. *)
Theorem failed_entry_leaves_no_file
        (E : Env) (total i : nat) (item : json) (c : counters) (w w' : world) :
  process_item E total i item c w = (Ret (count_failed c), w') ->
  exists evs,
    w' = mkWorld (files w) (trace w ++ evs)
    /\ count_gets evs = 3
    /\ count_writes evs = 0
    /\ exists mint_address nft_name url file_ext,
         entry_fields item = Ret (mint_address, JStr url, nft_name)
         /\ get_file_extension_from_url E url = Ret file_ext
         /\ files w' !! OsPath.join download_dir
                          (py_str E mint_address +:+ file_ext) = None.
Proof.
  intros Hrun. apply process_item_cases in Hrun.
  destruct Hrun as (m & u & nm & Hfields & Hcases). cbv zeta in Hcases.
  destruct Hcases as [(_ & Hc & _)|(_ & url & ext & -> & Hext & Hcases)].
  { exfalso. injection Hc as Hc. lia. }
  destruct Hcases as [(content & _ & Hc & _)|(ok & w2 & Hfile & Hdl & Hc & ->)].
  { exfalso. injection Hc as Hc. lia. }
  destruct ok; [exfalso; injection Hc as Hc; lia|].
  unfold download_image in Hdl. apply download_attempts_false in Hdl; [|lia].
  destruct Hdl as (evs & -> & Hg & Hw).
  exists ([EvPrint (MProcessing i total nm); EvPrint (MMint m)] ++ evs
          ++ [EvSleep (1 # 2)]).
  rewrite !after_after. split; [reflexivity|].
  rewrite !count_gets_app, !count_writes_app, Hg, Hw.
  split; [reflexivity|]. split; [reflexivity|].
  exists m, nm, url, ext. split; [exact Hfields|]. split; [exact Hext|].
  exact Hfile.
Qed.

Lemma failed_entry_leaves_no_file_witness :
  exists evs,
    snd (process_item (Sample.env None Sample.server_404 Sample.good_disk) 1 1
           (Sample.entry "A" "https://x.com/a.png" "Ape") (mkCounters 0 0 0)
           Sample.empty_world)
    = mkWorld ∅ ([] ++ evs)
    /\ count_gets evs = 3
    /\ count_writes evs = 0.
Proof.
  destruct (failed_entry_leaves_no_file
              (Sample.env None Sample.server_404 Sample.good_disk) 1 1
              (Sample.entry "A" "https://x.com/a.png" "Ape") (mkCounters 0 0 0)
              Sample.empty_world
              (snd (process_item (Sample.env None Sample.server_404 Sample.good_disk)
                      1 1 (Sample.entry "A" "https://x.com/a.png" "Ape")
                      (mkCounters 0 0 0) Sample.empty_world)))
    as (evs & Hw & Hg & Hwr & _).
  - vm_compute. reflexivity.
  - exists evs. split; [exact Hw|]. split; [exact Hg|exact Hwr].
Defined.

(** X15: a write that the disk refuses ends the whole run: when the server
    answers the first request of an entry and the disk does not take the
    file, the loop stops with [OSError] at that entry, which is counted in
    no counter, and the entries after it are not processed. *)
Theorem write_fault_aborts_loop
        (E : Env) (total i : nat) (item : json) (rest : list json) (c : counters)
        (w : world) (mint_address nft_name : json) (url file_ext content : string) :
  entry_fields item = Ret (mint_address, JStr url, nft_name) ->
  Py.truthy mint_address = true ->
  url <> EmptyString ->
  get_file_extension_from_url E url = Ret file_ext ->
  let filepath := OsPath.join download_dir (py_str E mint_address +:+ file_ext) in
  let started := [EvPrint (MProcessing i total nft_name); EvPrint (MMint mint_address);
                  EvPrint (MDownloading (OsPath.basename filepath))] in
  files w !! filepath = None ->
  raise_for_status (requests_get E (trace w ++ started) url) = Some content ->
  write_fault E (after w (started ++ [EvGet url USER_AGENT 30])) filepath content
  <> NoFault ->
  exists w',
    process_items E total i (item :: rest) c w = (Raise OSError, w')
    /\ trace w' = trace w ++ started ++ [EvGet url USER_AGENT 30; EvWrite filepath].
Proof.
  intros Hfields Hmint Hurl Hext filepath started Hfile Hresp Hfault.
  rewrite process_items_cons, process_item_eq, Hfields. cbv zeta. rewrite Hmint.
  assert (Py.truthy (JStr url) = true) as ->.
  { simpl. destruct (String.eqb_spec url ""); [contradiction|reflexivity]. }
  simpl negb. simpl orb. cbv iota. rewrite Hext. fold filepath. rewrite Hfile.
  unfold download_image. change (Z.to_nat 3) with 3.
  rewrite download_attempts_S. cbv zeta. cbn [after trace].
  unfold started in Hresp. rewrite <- app_assoc. simpl app.
  simpl app in Hresp. rewrite Hresp.
  rewrite bind_run. unfold write_file at 1. rewrite after_after. simpl app.
  unfold started in Hfault. simpl app in Hfault.
  destruct (write_fault E _ filepath content); [congruence| |];
    eexists; (split; [reflexivity|]); cbn [log after trace files];
    rewrite <- !app_assoc; reflexivity.
Qed.

Lemma write_fault_aborts_loop_witness :
  exists w',
    process_items (Sample.env None Sample.server_ok Sample.bad_disk) 2 1
      [Sample.entry "A" "https://x.com/a.png" "Ape";
       Sample.entry "B" "https://x.com/b.png" "Bee"] (mkCounters 0 0 0)
      Sample.empty_world
    = (Raise OSError, w')
    /\ trace w'
       = [EvPrint (MProcessing 1 2 (JStr "Ape")); EvPrint (MMint (JStr "A"));
          EvPrint (MDownloading "A.png"); EvGet "https://x.com/a.png" USER_AGENT 30;
          EvWrite "nft_images/A.png"].
Proof.
  pose proof (write_fault_aborts_loop
                (Sample.env None Sample.server_ok Sample.bad_disk) 2 1
                (Sample.entry "A" "https://x.com/a.png" "Ape")
                [Sample.entry "B" "https://x.com/b.png" "Bee"] (mkCounters 0 0 0)
                Sample.empty_world (JStr "A") (JStr "Ape") "https://x.com/a.png"
                ".png" "IMAGE") as H.
  cbv zeta in H. vm_compute in H.
  destruct H as (w' & Hrun & Htrace); try reflexivity; try discriminate.
  exists w'. split; [|exact Htrace].
  vm_compute. exact Hrun.
Defined.

(** X16: within a run, an entry that was skipped or counted successful is
    not downloaded a second time: when the same entry comes again later
    (the same identifier and URL twice in a manifest), with the files still
    there, it is handled without a request, a write or a wait and is not
    counted as failed. *)
Theorem repeated_entry_is_not_fetched_again
        (E : Env) (total i j : nat) (item : json) (c c1 cx : counters)
        (w w1 wx : world) :
  process_item E total i item c w = (Ret c1, w1) ->
  failed_downloads c1 = failed_downloads c ->
  (forall p, is_Some (files w1 !! p) -> is_Some (files wx !! p)) ->
  exists evs cx',
    process_item E total j item cx wx
    = (Ret cx', mkWorld (files wx) (trace wx ++ evs))
    /\ forallb is_quiet evs = true
    /\ count_gets evs = 0
    /\ failed_downloads cx' = failed_downloads cx.
Proof.
  intros Hrun Hfailed Hfiles.
  destruct (process_item_revisit E total i item c w c1 w1 Hrun Hfailed total j cx wx
              Hfiles) as (evs & cx' & Hagain & Hquiet & Hf).
  exists evs, cx'. split; [exact Hagain|]. split; [exact Hquiet|].
  split; [|exact Hf].
  clear - Hquiet. unfold count_gets.
  induction evs as [|[] evs IH]; simpl in *; try discriminate; auto.
Qed.

Lemma repeated_entry_is_not_fetched_again_witness :
  exists evs cx',
    process_item (Sample.env None Sample.server_ok Sample.good_disk) 2 2
      (Sample.entry "A" "https://x.com/a.png" "Ape") (mkCounters 1 0 0)
      (snd (process_item (Sample.env None Sample.server_ok Sample.good_disk) 2 1
              (Sample.entry "A" "https://x.com/a.png" "Ape") (mkCounters 0 0 0)
              Sample.empty_world))
    = (Ret cx',
       mkWorld
         (files (snd (process_item (Sample.env None Sample.server_ok Sample.good_disk)
                        2 1 (Sample.entry "A" "https://x.com/a.png" "Ape")
                        (mkCounters 0 0 0) Sample.empty_world)))
         (trace (snd (process_item (Sample.env None Sample.server_ok Sample.good_disk)
                        2 1 (Sample.entry "A" "https://x.com/a.png" "Ape")
                        (mkCounters 0 0 0) Sample.empty_world)) ++ evs))
    /\ forallb is_quiet evs = true
    /\ count_gets evs = 0
    /\ failed_downloads cx' = failed_downloads (mkCounters 1 0 0).
Proof.
  apply (repeated_entry_is_not_fetched_again
           (Sample.env None Sample.server_ok Sample.good_disk) 2 1 2
           (Sample.entry "A" "https://x.com/a.png" "Ape")
           (mkCounters 0 0 0) (mkCounters 1 0 0) (mkCounters 1 0 0)
           Sample.empty_world
           (snd (process_item (Sample.env None Sample.server_ok Sample.good_disk) 2 1
                   (Sample.entry "A" "https://x.com/a.png" "Ape") (mkCounters 0 0 0)
                   Sample.empty_world))
           (snd (process_item (Sample.env None Sample.server_ok Sample.good_disk) 2 1
                   (Sample.entry "A" "https://x.com/a.png" "Ape") (mkCounters 0 0 0)
                   Sample.empty_world))).
  - vm_compute. reflexivity.
  - reflexivity.
  - intros p Hp. exact Hp.
Defined.

(* ===================================================================== *)
(** ** Further properties: the inferred extension (lines 24-36) *)
(* ===================================================================== *)

Lemma str_app_assoc s t u : (s +:+ t) +:+ u = s +:+ (t +:+ u).
Proof.
  induction s as [|c s IH]; [reflexivity|].
  rewrite !PyStrFacts.app_cons. now rewrite IH.
Qed.

(** The text before the first separator holds no separator. *)
Lemma before_has_no_sep sep s :
  sep <> EmptyString -> PyStr.contains sep (PyStr.before sep s) = false.
Proof.
  intros Hsep. unfold PyStr.before.
  destruct (PyStr.cut sep s) as [[a b]|] eqn:Hc.
  - rewrite PyStrFacts.contains_cut.
    destruct (PyStr.cut sep a) as [[a1 a2]|] eqn:Ha; [exfalso|reflexivity].
    pose proof (PyStrFacts.cut_app _ _ _ _ Hc) as Hs.
    pose proof (PyStrFacts.cut_app _ _ _ _ Ha) as Hsa.
    pose proof (PyStrFacts.cut_length _ _ _ _ Ha) as Hl.
    rewrite Hsa, !str_app_assoc in Hs.
    pose proof (PyStrFacts.cut_leftmost _ _ _ _ Hc a1 _ Hs) as Hle.
    destruct sep; [congruence|]. simpl in Hl. lia.
  - now rewrite PyStrFacts.contains_cut, Hc.
Qed.

(** The character at the index that [rfind] returns is the one looked
    for. *)
Lemma drop_rfind c s :
  (0 <= PyStr.rfind c s)%Z ->
  exists rest, PyStr.drop (Z.to_nat (PyStr.rfind c s)) s = String c rest.
Proof.
  induction s as [|x s IH]; [unfold PyStr.rfind; simpl; lia|].
  rewrite OsPathFacts.rfind_cons.
  destruct (PyStr.rfind c s <? 0)%Z eqn:Hs.
  - destruct (Ascii.eqb_spec x c) as [->|]; [|lia].
    intros _. exists s. reflexivity.
  - apply Z.ltb_ge in Hs. intros _. destruct (IH Hs) as [rest Hrest].
    exists rest. replace (Z.to_nat (1 + PyStr.rfind c s))
      with (S (Z.to_nat (PyStr.rfind c s))) by lia.
    exact Hrest.
Qed.

(** X17: whatever the URL, an inferred extension starts with a dot, so the
    file name [<id><ext>] always has a dot after the identifier. *)
Theorem extension_starts_with_dot (E : Env) (url ext : string) :
  get_file_extension_from_url E url = Ret ext ->
  exists rest, ext = String "." rest.
Proof.
  intros Hrun.
  destruct (urlparse E url) as [parsed|] eqn:Hp.
  2:{ rewrite (ext_rejected E url Hp) in Hrun. discriminate. }
  destruct (PyStr.contains "?ext=" url) eqn:Hc.
  - rewrite PyStrFacts.contains_cut in Hc.
    destruct (PyStr.cut "?ext=" url) as [[b a]|] eqn:Hcut; [|discriminate].
    rewrite (ext_from_query E url parsed b a Hp Hcut) in Hrun.
    injection Hrun as <-. eexists. reflexivity.
  - rewrite (ext_from_path E url parsed Hp Hc) in Hrun. injection Hrun as <-.
    destruct (String.eqb_spec (snd (OsPath.splitext (path parsed))) "") as [|Hne];
      simpl negb; cbv iota; [eexists; reflexivity|].
    rewrite OsPathFacts.splitext_ext in *. cbv zeta in *.
    destruct ((PyStr.rfind "." (OsPath.basename (path parsed)) <? 0)%Z) eqn:Hneg;
      [contradiction|].
    simpl orb in *.
    destruct (SpecWords.only_dots _); [contradiction|].
    unfold SpecWords.last_dot_ext. rewrite Hneg.
    apply drop_rfind. now apply Z.ltb_ge.
Qed.

Lemma extension_starts_with_dot_witness :
  exists rest, ".jpeg" = String "." rest.
Proof.
  apply (extension_starts_with_dot Sample.lib "https://x.com/path/file.jpeg" ".jpeg").
  vm_compute. reflexivity.
Defined.

(** X18: the extension read from [?ext=] never holds an ampersand: the
    other query parameters of the URL do not get into the file name. *)
Theorem query_extension_has_no_ampersand
        (E : Env) (url : string) (parsed : ParseResult) :
  urlparse E url = Some parsed ->
  PyStr.contains "?ext=" url = true ->
  exists value,
    get_file_extension_from_url E url = Ret ("." +:+ value)
    /\ PyStr.contains "&" value = false.
Proof.
  intros Hp Hc. rewrite PyStrFacts.contains_cut in Hc.
  destruct (PyStr.cut "?ext=" url) as [[b a]|] eqn:Hcut; [|discriminate].
  exists (PyStr.before "&" (PyStr.before "?ext=" a)).
  split; [exact (ext_from_query E url parsed b a Hp Hcut)|].
  apply before_has_no_sep. discriminate.
Qed.

Lemma query_extension_has_no_ampersand_witness :
  exists value,
    get_file_extension_from_url Sample.lib "https://x.com/img?ext=gif&size=2"
    = Ret ("." +:+ value)
    /\ PyStr.contains "&" value = false.
Proof.
  apply (query_extension_has_no_ampersand Sample.lib "https://x.com/img?ext=gif&size=2"
           (mkParseResult "https" "x.com" "/img" "" "ext=gif&size=2" ""));
    reflexivity.
Defined.

(** X19: extension inference fails only when [urlparse] rejects the URL,
    and then with its [ValueError]: the two list indexings of line 31 never
    raise, as they are only reached when [?ext=] is in the URL. *)
Theorem extension_fails_only_on_rejected_url (E : Env) (url : string) (e : exn) :
  get_file_extension_from_url E url = Raise e ->
  e = ValueError /\ urlparse E url = None.
Proof.
  intros Hrun. destruct (urlparse E url) as [parsed|] eqn:Hp.
  - destruct (ext_returns E url parsed Hp) as (ext & Hext & _). congruence.
  - rewrite (ext_rejected E url Hp) in Hrun. injection Hrun as <-. now split.
Qed.

Lemma extension_fails_only_on_rejected_url_witness :
  ValueError = ValueError /\ urlparse Sample.lib "http://[/?ext=gif" = None.
Proof.
  apply (extension_fails_only_on_rejected_url Sample.lib "http://[/?ext=gif" ValueError).
  vm_compute. reflexivity.
Defined.

(* ===================================================================== *)
(** ** Further properties: complete runs and the empty retry budget *)
(* ===================================================================== *)

(** X20: a manifest of the documented shape, all of whose entries are
    objects with readable fields, URLs that [urlparse] accepts and
    destination paths that [open] accepts (no NUL character in them), is
    always processed to the end on a disk that takes every write, whatever
    the server answers: [main] returns normally and its summary accounts for
    every entry.  (The hypothesis on the destinations keeps the statement to
    the paths of the model; without it [open] raises [ValueError] on a path
    with a NUL and the run ends there.) *)
Theorem well_formed_run_reaches_summary
        (E : Env) (w : world) (kvs result : list (string * json)) (items : list json) :
  mkdir_fault E download_dir = false ->
  json_load E json_file = Some (JObj kvs) ->
  Py.assoc "result" kvs = Some (JObj result) ->
  Py.assoc "items" result = Some (JArr items) ->
  Forall (usable E) items ->
  Forall (destination_accepted E) items ->
  reliable_disk E ->
  exists c w1,
    main E w = (Ret tt, after w1 (summary_events E c (List.length items)))
    /\ successful_downloads c + failed_downloads c + skipped_downloads c
       = List.length items.
Proof.
  intros Hmk Hload Hres Hitems Husable _ Hdisk.
  destruct (main_loop_returns E Hdisk w kvs result items Hmk Hload Hres Hitems Husable)
    as (c & w1 & Hloop).
  exists c, w1. split; [rewrite main_eq, Hloop; reflexivity|].
  pose proof (main_loop_some E w c _ w1 Hloop)
    as (data & res & its & elements & _ & _ & _ & _ & _ & Hlen & Hiter & Hrun).
  pose proof (len_iter _ _ _ Hlen Hiter) as Hn.
  apply process_items_counts in Hrun. unfold counted in Hrun. simpl in Hrun. lia.
Qed.

Lemma well_formed_run_reaches_summary_witness :
  exists c w1,
    main Scenario.env Sample.empty_world
    = (Ret tt, after w1 (summary_events Scenario.env c 3))
    /\ successful_downloads c + failed_downloads c + skipped_downloads c = 3.
Proof.
  apply (well_formed_run_reaches_summary Scenario.env Sample.empty_world
           [("result", JObj [("items", JArr Scenario.items)])]
           [("items", JArr Scenario.items)] Scenario.items);
    try reflexivity.
  - repeat constructor.
    + exists (JStr "Mint1"), (JStr "https://cdn.example/one.png"), (JStr "One").
      split; [reflexivity|]. right. eexists _, _. split; reflexivity.
    + exists (JStr ""), (JStr "https://cdn.example/two.png"), (JStr "Unknown").
      split; [reflexivity|]. left. reflexivity.
    + exists (JStr "Mint3"), (JStr Scenario.flaky_url), (JStr "Three").
      split; [reflexivity|]. right. eexists _, _. split; reflexivity.
  - repeat constructor; intros m nm url ext Hfields Hext;
      vm_compute in Hfields; injection Hfields as <- <- <-;
      vm_compute in Hext; injection Hext as <-; reflexivity.
  - intros w p c. reflexivity.
Defined.

(** X21: with a retry budget of zero or less the loop of line 44 has no
    iteration: [download_image] returns [False] at line 66 without a
    request, a write or a word. *)
Theorem no_budget_no_request
        (E : Env) (url filepath : string) (max_retries : Z) (w : world) :
  (max_retries <= 0)%Z ->
  download_image E url filepath max_retries w = (Ret false, w).
Proof.
  intros Hle. unfold download_image.
  replace (Z.to_nat max_retries) with 0 by lia. reflexivity.
Qed.

Lemma no_budget_no_request_witness :
  download_image (Sample.env None Sample.server_ok Sample.good_disk)
    "https://x.com/a.png" "nft_images/A.png" 0 Sample.empty_world
  = (Ret false, Sample.empty_world).
Proof.
  apply (no_budget_no_request (Sample.env None Sample.server_ok Sample.good_disk)
           "https://x.com/a.png" "nft_images/A.png" 0 Sample.empty_world).
  lia.
Defined.
